(** * devops-tool-htmx: the canary control plane of [main.go]

    A shallow embedding of the Go program: the state projector
    [GetAppState], the create-canary handler and the set-canary handler,
    over an interface to the cluster client and over an in-memory cluster
    that implements it. *)

From Stdlib Require Import ZArith String Ascii List Bool Lia.
From stdpp Require Import base option gmap strings list.

Open Scope string_scope.
Open Scope Z_scope.

(** ** Go values *)

(** A Go [map[string]string]: [None] is the nil map. Reading a nil map
    gives the zero value, writing to it is a run-time panic. *)
Abbreviation gomap := (option (gmap string string)).

Inductive panic :=
  | IndexOutOfRange
  | NilPointerDereference
  | AssignmentToNilMap.

(** The error kinds. The program itself builds no error value: every
    [error] it returns was returned to it by the cluster client or by the
    request body parser. *)
Inductive error :=
  | NotFound
  | MalformedWorkload
  | InvalidTag
  | GatewayError (reason : string)
  | Cancelled
  | BodyParseError.

(** What a call of the cluster client gives back: [(value, nil)] or
    [(nil, err)]. *)
Inductive result (A : Type) :=
  | Success (a : A)
  | Failure (e : error).
Arguments Success {A} a.
Arguments Failure {A} e.

(** What a Go function of this program does: return a value, return an
    error, or panic. *)
Inductive outcome (A : Type) :=
  | Ok (a : A)
  | Err (e : error)
  | Panic (p : panic).
Arguments Ok {A} a.
Arguments Err {A} e.
Arguments Panic {A} p.

#[global] Instance outcome_ret : MRet outcome := fun A a => Ok a.
#[global] Instance outcome_bind : MBind outcome := fun A B f m =>
  match m with
  | Ok a => f a
  | Err e => Err e
  | Panic p => Panic p
  end.

(** [v, err := call(); if err != nil { return nil, err }] *)
Definition try {A} (r : result A) : outcome A :=
  match r with
  | Success a => Ok a
  | Failure e => Err e
  end.

(** The value a Go map holds for a key, [None] when the key is absent. *)
Definition map_lookup (m : gomap) (k : string) : option string :=
  m ≫= (fun g => g !! k).

(** [m[k]] *)
Definition map_index (m : gomap) (k : string) : string :=
  match m with
  | Some g => default "" (g !! k)
  | None => ""
  end.

(** [_, ok := m[k]] *)
Definition map_has (m : gomap) (k : string) : bool :=
  match m with
  | Some g => bool_decide (is_Some (g !! k))
  | None => false
  end.

(** [m[k] = v] *)
Definition map_assign (m : gomap) (k v : string) : outcome gomap :=
  match m with
  | Some g => Ok (Some (<[k := v]> g))
  | None => Panic AssignmentToNilMap
  end.

(** [*p] *)
Definition deref {A} (p : option A) : outcome A :=
  match p with
  | Some a => Ok a
  | None => Panic NilPointerDereference
  end.

(** [s[0]] *)
Definition index0 {A} (s : list A) : outcome A :=
  match s with
  | a :: _ => Ok a
  | [] => Panic IndexOutOfRange
  end.

(** [strconv.ParseBool]: [None] stands for the syntax error. *)
Definition ParseBool (str : string) : option bool :=
  if existsb (String.eqb str) ["1"; "t"; "T"; "TRUE"; "true"; "True"] then Some true
  else if existsb (String.eqb str) ["0"; "f"; "F"; "FALSE"; "false"; "False"] then Some false
  else None.

(** ** The Kubernetes objects the program reads and writes *)

Module metav1.
Record ObjectMeta := {
  Name : string;
  Labels : gomap;
  Annotations : gomap
}.

Record LabelSelector := {
  MatchLabels : gomap
}.

(** The label selector of a list call is kept as the selector it was
    printed from: [FormatLabelSelector] only prints it for the wire. *)
Record ListOptions := {
  LabelSelector_ : LabelSelector
}.

Definition AddLabelToSelector (selector : LabelSelector)
    (labelKey labelValue : string) : LabelSelector :=
  if (labelKey =? "")%string then selector
  else {| MatchLabels :=
            Some (<[labelKey := labelValue]> (default ∅ (MatchLabels selector))) |}.
End metav1.

Module v1.
Record Container := {
  Name : string;
  Image : string;
  Env : list (string * string)
}.

Record PodSpec := {
  Containers : list Container;
  Volumes : list string
}.

Record PodTemplateSpec := {
  ObjectMeta : metav1.ObjectMeta;
  Spec : PodSpec
}.

Record ObjectReference := {
  RefName : string
}.

Record EndpointAddress := {
  IP : string;
  TargetRef : option ObjectReference
}.

Record EndpointSubset := {
  Addresses : list EndpointAddress
}.

Record Endpoints := {
  Subsets : list EndpointSubset
}.

Record ServiceSpec := {
  Selector : gomap
}.

Record Service := {
  SvcSpec : ServiceSpec
}.
End v1.

Module appsv1.
Record DeploymentSpec := {
  Replicas : option Z;
  Selector : option metav1.LabelSelector;
  Template : v1.PodTemplateSpec
}.

Record DeploymentStatus := {
  AvailableReplicas : Z
}.

Record Deployment := {
  ObjectMeta : metav1.ObjectMeta;
  Spec : DeploymentSpec;
  Status : DeploymentStatus
}.

Definition GetName (d : Deployment) : string := metav1.Name (ObjectMeta d).
Definition GetLabels (d : Deployment) : gomap := metav1.Labels (ObjectMeta d).
Definition GetAnnotations (d : Deployment) : gomap := metav1.Annotations (ObjectMeta d).
End appsv1.

(** ** The types of package main *)

Record Deployment := {
  Name : string;
  Image : string;
  Track : string;
  Replicas : Z;
  AvailableReplicas : Z
}.

Record Endpoint := {
  TargetPod : string;
  Ip : string
}.

Record AppStateResponse := {
  CanaryEnabled : bool;
  Deployments : list Deployment;
  Endpoints : list Endpoint
}.

Record CanaryCreateRequest := {
  Tag : string;
  ReqReplicas : Z
}.

Record jsonPatchOp := {
  Op : string;
  Path : string;
  From : string;
  Value : string
}.

(** ** The cluster client

    The calls of [kubernetes.Clientset] the program makes, in namespace
    [default], over a cluster state [W]. Reads leave the cluster as it is;
    [Create] and [Patch] return the cluster they leave behind. *)
Record Clientset (W : Type) := {
  Deployments_List : W -> metav1.ListOptions -> result (list appsv1.Deployment);
  Deployments_Get : W -> string -> result appsv1.Deployment;
  Deployments_Create : W -> appsv1.Deployment -> result appsv1.Deployment * W;
  Endpoints_Get : W -> string -> result v1.Endpoints;
  Services_Get : W -> string -> result v1.Service;
  Services_Patch : W -> string -> list jsonPatchOp -> result v1.Service * W
}.
Arguments Deployments_List {W}.
Arguments Deployments_Get {W}.
Arguments Deployments_Create {W}.
Arguments Endpoints_Get {W}.
Arguments Services_Get {W}.
Arguments Services_Patch {W}.

(** ** The state projector *)

(** One turn of the loop of [asCustomDeployment]. *)
Definition customDeployment (v : appsv1.Deployment) : outcome Deployment :=
  c ← index0 (v1.Containers (v1.Spec (appsv1.Template (appsv1.Spec v))));
  r ← deref (appsv1.Replicas (appsv1.Spec v));
  mret {| Name := appsv1.GetName v;
          Image := v1.Image c;
          Track := map_index (appsv1.GetLabels v) "track";
          Replicas := r;
          AvailableReplicas := appsv1.AvailableReplicas (appsv1.Status v) |}.

Fixpoint asCustomDeployment (deployments : list appsv1.Deployment)
    : outcome (list Deployment) :=
  match deployments with
  | [] => mret []
  | v :: rest =>
      deployment ← customDeployment v;
      customDeployments ← asCustomDeployment rest;
      mret (deployment :: customDeployments)
  end.

Definition customEndpoint (v : v1.EndpointAddress) : outcome Endpoint :=
  ref ← deref (v1.TargetRef v);
  mret {| TargetPod := v1.RefName ref; Ip := v1.IP v |}.

Fixpoint asCustomEndpoint (endpoints : list v1.EndpointAddress)
    : outcome (list Endpoint) :=
  match endpoints with
  | [] => mret []
  | v :: rest =>
      endpoint ← customEndpoint v;
      customEndpoints ← asCustomEndpoint rest;
      mret (endpoint :: customEndpoints)
  end.

(** The body of the filtering loop of [GetAppState]: does the object go
    into [managedDeployments]? *)
Definition managed (v : appsv1.Deployment) : bool :=
  match ParseBool (map_index (appsv1.GetAnnotations v) "devops-tool-htmx") with
  | None => false
  | Some managed =>
      if negb (map_has (appsv1.GetLabels v) "track") then false
      else managed
  end.

Fixpoint managedDeployments (items : list appsv1.Deployment)
    : list appsv1.Deployment :=
  match items with
  | [] => []
  | v :: rest =>
      if managed v then v :: managedDeployments rest
      else managedDeployments rest
  end.

Definition canaryEnabled (svc : v1.Service) : bool :=
  negb (map_index (v1.Selector (v1.SvcSpec svc)) "track" =? "main")%string.

(** [addresses := []; if len(endpoint.Subsets) > 0 { addresses =
    endpoint.Subsets[0].Addresses }] *)
Definition addresses_of (endpoint : v1.Endpoints) : list v1.EndpointAddress :=
  match v1.Subsets endpoint with
  | subset :: _ => v1.Addresses subset
  | [] => []
  end.

Definition GetAppState {W} (k8s : Clientset W) (name : string) (w : W)
    : outcome AppStateResponse :=
  let labelSelector :=
    metav1.AddLabelToSelector {| metav1.MatchLabels := None |} "app" name in
  let options := {| metav1.LabelSelector_ := labelSelector |} in
  deployments ← try (Deployments_List k8s w options);
  let managedDeployments := managedDeployments deployments in
  endpoint ← try (Endpoints_Get k8s w name);
  svc ← try (Services_Get k8s w name);
  let addresses := addresses_of endpoint in
  let canaryEnabled := canaryEnabled svc in
  ds ← asCustomDeployment managedDeployments;
  es ← asCustomEndpoint addresses;
  mret {| CanaryEnabled := canaryEnabled; Deployments := ds; Endpoints := es |}.

(** ** The canary spawner *)

(** [strings.Index] *)
Fixpoint Index (s substr : string) : option nat :=
  if String.prefix substr s then Some 0%nat
  else match s with
       | EmptyString => None
       | String _ s' => S <$> Index s' substr
       end.

(** The loop of [strings.genSplit] (with [sepSave = 0]), [k] turns left. *)
Fixpoint genSplit_loop (s sep : string) (k : nat) : list string :=
  match k with
  | O => [s]
  | S k' =>
      match Index s sep with
      | None => [s]
      | Some m =>
          let n := (m + String.length sep)%nat in
          substring 0 m s
            :: genSplit_loop (substring n (String.length s - n) s) sep k'
      end
  end.

(** [strings.SplitN] for a separator that is not empty and [n >= 0]. *)
Definition SplitN (s sep : string) (n : nat) : list string :=
  match n with
  | O => []
  | _ => genSplit_loop s sep (Nat.min n (String.length s + 1) - 1)
  end.

(** [strings.ReplaceAll] for a one-byte [old]. *)
Fixpoint ReplaceAll (s : string) (old : ascii) (new : string) : string :=
  match s with
  | EmptyString => EmptyString
  | String c s' =>
      if Ascii.eqb c old then new ++ ReplaceAll s' old new
      else String c (ReplaceAll s' old new)
  end.

(** [Containers[0].Image = image] *)
Definition set_image0 (cs : list v1.Container) (image : string) : list v1.Container :=
  match cs with
  | c :: rest =>
      {| v1.Name := v1.Name c; v1.Image := image; v1.Env := v1.Env c |} :: rest
  | [] => []
  end.

(** The image reference the handler computes from the one of the primary. *)
Definition canary_image (image tag : string) : outcome string :=
  let imageSplit := SplitN image ":" 2 in
  repo ← index0 imageSplit;
  mret (repo ++ ":" ++ tag).

(** The object the create-canary handler builds from the primary
    [deployment] and hands to [Create]; [randomName] is what
    [namesgenerator.GetRandomName(0)] returned. *)
Definition canary_deployment (name randomName : string)
    (req : CanaryCreateRequest) (deployment : appsv1.Deployment)
    : outcome appsv1.Deployment :=
  let canary_name := name ++ "-canary-" ++ ReplaceAll randomName "_" "-" in
  let labels0 : gomap := Some {[ "app" := "nginx" ]} in
  let annotations : gomap := Some {[ "devops-tool-htmx" := "true" ]} in
  let spec := appsv1.Spec deployment in
  labels ← map_assign labels0 "track" "canary";
  selector ← deref (appsv1.Selector spec);
  matchLabels ← map_assign (metav1.MatchLabels selector) "track" "canary";
  let template := appsv1.Template spec in
  let tmeta := v1.ObjectMeta template in
  templateLabels ← map_assign (metav1.Labels tmeta) "track" "canary";
  let containers := v1.Containers (v1.Spec template) in
  c0 ← index0 containers;
  image ← canary_image (v1.Image c0) (Tag req);
  mret {| appsv1.ObjectMeta :=
            {| metav1.Name := canary_name;
               metav1.Labels := labels;
               metav1.Annotations := annotations |};
          appsv1.Spec :=
            {| appsv1.Replicas := Some (ReqReplicas req);
               appsv1.Selector := Some {| metav1.MatchLabels := matchLabels |};
               appsv1.Template :=
                 {| v1.ObjectMeta :=
                      {| metav1.Name := metav1.Name tmeta;
                         metav1.Labels := templateLabels;
                         metav1.Annotations := metav1.Annotations tmeta |};
                    v1.Spec :=
                      {| v1.Containers := set_image0 containers image;
                         v1.Volumes := v1.Volumes (v1.Spec template) |} |} |};
          appsv1.Status := {| appsv1.AvailableReplicas := 0 |} |}.

(** The handler of [POST /app/:name/create_canary]; [body] is what
    [c.BodyParser(req)] made of the request. *)
Definition create_canary {W} (clientset : Clientset W) (name randomName : string)
    (body : result CanaryCreateRequest) (w : W) : outcome AppStateResponse * W :=
  match body with
  | Failure err => (Err err, w)
  | Success req =>
      match Deployments_Get clientset w name with
      | Failure err => (Err err, w)
      | Success deployment =>
          match canary_deployment name randomName req deployment with
          | Panic p => (Panic p, w)
          | Err err => (Err err, w)
          | Ok canary =>
              let '(created, w') := Deployments_Create clientset w canary in
              match created with
              | Failure err => (Err err, w')
              | Success _ => (GetAppState clientset name w', w')
              end
          end
      end
  end.

(** ** The traffic switch *)

(** The patch the set-canary handler marshals. *)
Definition set_canary_patch (enabled : bool) : list jsonPatchOp :=
  let op := {| Op := "add"; Path := "/spec/selector/track"; Value := "main"; From := "" |} in
  if enabled
  then [ {| Op := "remove"; Path := Path op; Value := Value op; From := From op |} ]
  else [ op ].

(** The handler of [GET /app/:name/set_canary]; [enabled] is
    [c.QueryBool("enabled")]. The sleep between the patch and the read
    changes nothing the model holds. *)
Definition set_canary {W} (clientset : Clientset W) (name : string)
    (enabled : bool) (w : W) : outcome AppStateResponse * W :=
  let patch := set_canary_patch enabled in
  let '(patched, w') := Services_Patch clientset w name patch in
  match patched with
  | Failure err => (Err err, w')
  | Success _ => (GetAppState clientset name w', w')
  end.

(** ** An in-memory cluster

    The orchestrator is not part of the program. This is the cluster the
    handlers are run against: the objects of namespace [default], a list
    call that selects by label, a create that refuses a name already
    taken, and a patch of type [types.JSONPatchType], the type the
    set-canary handler asks for, applied as RFC 6902 defines [add] and
    [remove] on a member of an object. *)
Module Cluster.
Record t := {
  deployments : list appsv1.Deployment;
  services : gmap string v1.Service;
  endpoints : gmap string v1.Endpoints
}.

(** Every label the selector asks for is on the object. *)
Definition selected (options : metav1.ListOptions) (d : appsv1.Deployment) : bool :=
  match metav1.MatchLabels (metav1.LabelSelector_ options) with
  | Some reqs =>
      bool_decide (map_Forall (fun k v => map_lookup (appsv1.GetLabels d) k = Some v) reqs)
  | None => true
  end.

Definition named (name : string) (d : appsv1.Deployment) : bool :=
  (appsv1.GetName d =? name)%string.

Definition list_deployments (c : t) (options : metav1.ListOptions)
    : result (list appsv1.Deployment) :=
  Success (List.filter (selected options) (deployments c)).

Definition get_deployment (c : t) (name : string) : result appsv1.Deployment :=
  match List.find (named name) (deployments c) with
  | Some d => Success d
  | None => Failure NotFound
  end.

Definition create_deployment (c : t) (d : appsv1.Deployment)
    : result appsv1.Deployment * t :=
  match List.find (named (appsv1.GetName d)) (deployments c) with
  | Some _ => (Failure (GatewayError "AlreadyExists"), c)
  | None =>
      (Success d,
       {| deployments := deployments c ++ [d];
          services := services c;
          endpoints := endpoints c |})
  end.

Definition get_endpoints (c : t) (name : string) : result v1.Endpoints :=
  match endpoints c !! name with
  | Some e => Success e
  | None => Failure NotFound
  end.

Definition get_service (c : t) (name : string) : result v1.Service :=
  match services c !! name with
  | Some s => Success s
  | None => Failure NotFound
  end.

(** The member of [/spec/selector] a JSON pointer names, if it names one. *)
Definition selector_member (path : string) : option string :=
  let parent := "/spec/selector/" in
  if String.prefix parent path
  then Some (substring (String.length parent)
                       (String.length path - String.length parent) path)
  else None.

(** One operation of a JSON patch on the selector of a service. [add]
    sets the member, present or not, and needs the selector object to
    be there; [remove] needs the member to be there. *)
Definition apply_op (svc : v1.Service) (op : jsonPatchOp) : result v1.Service :=
  match selector_member (Path op), v1.Selector (v1.SvcSpec svc) with
  | Some key, Some sel =>
      if (Op op =? "add")%string then
        Success {| v1.SvcSpec := {| v1.Selector := Some (<[key := Value op]> sel) |} |}
      else if (Op op =? "remove")%string then
        match sel !! key with
        | Some _ =>
            Success {| v1.SvcSpec := {| v1.Selector := Some (delete key sel) |} |}
        | None => Failure (GatewayError "Unable to remove nonexistent key")
        end
      else Failure (GatewayError "Unexpected kind")
  | _, _ => Failure (GatewayError "missing path")
  end.

Fixpoint apply_patch (svc : v1.Service) (patch : list jsonPatchOp) : result v1.Service :=
  match patch with
  | [] => Success svc
  | op :: rest =>
      match apply_op svc op with
      | Success svc' => apply_patch svc' rest
      | Failure e => Failure e
      end
  end.

(** A patch that fails leaves the stored object as it was. *)
Definition patch_service (c : t) (name : string) (patch : list jsonPatchOp)
    : result v1.Service * t :=
  match services c !! name with
  | None => (Failure NotFound, c)
  | Some svc =>
      match apply_patch svc patch with
      | Failure e => (Failure e, c)
      | Success svc' =>
          (Success svc',
           {| deployments := deployments c;
              services := <[name := svc']> (services c);
              endpoints := endpoints c |})
      end
  end.

Definition clientset : Clientset t :=
  {| Deployments_List := list_deployments;
     Deployments_Get := get_deployment;
     Deployments_Create := create_deployment;
     Endpoints_Get := get_endpoints;
     Services_Get := get_service;
     Services_Patch := patch_service |}.

(** The selector of the routing service [name], when there is one. *)
Definition selector (c : t) (name : string) : option gomap :=
  (fun s => v1.Selector (v1.SvcSpec s)) <$> services c !! name.
End Cluster.

(** ** The cluster of the repository's manifest

    The Deployment and the Service of the manifest, the endpoints a
    reconciled cluster holds for them, and variations of them. *)
Module Manifest.
Definition workload (name : string) (labels annotations : gomap)
    (containers : list v1.Container) : appsv1.Deployment :=
  {| appsv1.ObjectMeta :=
       {| metav1.Name := name;
          metav1.Labels := labels;
          metav1.Annotations := annotations |};
     appsv1.Spec :=
       {| appsv1.Replicas := Some 3;
          appsv1.Selector := Some {| metav1.MatchLabels := labels |};
          appsv1.Template :=
            {| v1.ObjectMeta :=
                 {| metav1.Name := "";
                    metav1.Labels := labels;
                    metav1.Annotations := None |};
               v1.Spec := {| v1.Containers := containers; v1.Volumes := [] |} |} |};
     appsv1.Status := {| appsv1.AvailableReplicas := 3 |} |}.

Definition container (name image : string) : v1.Container :=
  {| v1.Name := name; v1.Image := image; v1.Env := [] |}.

Definition opt_in : gomap := Some {[ "devops-tool-htmx" := "true" ]}.

Definition primary (app image : string) : appsv1.Deployment :=
  workload app (Some {[ "app" := app; "track" := "main" ]}) opt_in
           [ container app image ].

Definition service (sel : gomap) : v1.Service :=
  {| v1.SvcSpec := {| v1.Selector := sel |} |}.

Definition pods (app : string) : v1.Endpoints :=
  {| v1.Subsets :=
       [ {| v1.Addresses :=
              [ {| v1.IP := "10.0.0.1";
                   v1.TargetRef := Some {| v1.RefName := app ++ "-0" |} |} ] |} ] |}.

Definition cluster_of (app : string) (d : appsv1.Deployment) (sel : gomap)
    : Cluster.t :=
  {| Cluster.deployments := [ d ];
     Cluster.services := {[ app := service sel ]};
     Cluster.endpoints := {[ app := pods app ]} |}.

(** The manifest as it is: traffic pinned to the primary track. *)
Definition nginx : Cluster.t :=
  cluster_of "nginx" (primary "nginx" "nginx:1.25.0-alpine")
             (Some {[ "app" := "nginx"; "track" := "main" ]}).

(** The manifest after canary traffic was enabled: no [track] key. *)
Definition nginx_enabled : Cluster.t :=
  cluster_of "nginx" (primary "nginx" "nginx:1.25.0-alpine")
             (Some {[ "app" := "nginx" ]}).

(** The same application under another name. *)
Definition web : Cluster.t :=
  cluster_of "web" (primary "web" "web:1.0")
             (Some {[ "app" := "web"; "track" := "main" ]}).

(** A workload that opted in and whose [track] label is the empty string. *)
Definition blank_track : appsv1.Deployment :=
  workload "nginx" (Some {[ "app" := "nginx"; "track" := "" ]}) opt_in
           [ container "nginx" "nginx:1.25.0-alpine" ].

(** A workload that opted in and declares no container. *)
Definition no_container : appsv1.Deployment :=
  workload "nginx" (Some {[ "app" := "nginx"; "track" := "main" ]}) opt_in [].

Definition with_workload (d : appsv1.Deployment) : Cluster.t :=
  cluster_of "nginx" d (Some {[ "app" := "nginx"; "track" := "main" ]}).

(** The canary of a primary of the manifest, as the handler builds it. *)
Definition canary (app name image : string) (replicas : Z) : appsv1.Deployment :=
  {| appsv1.ObjectMeta :=
       {| metav1.Name := name;
          metav1.Labels := Some {[ "app" := "nginx"; "track" := "canary" ]};
          metav1.Annotations := opt_in |};
     appsv1.Spec :=
       {| appsv1.Replicas := Some replicas;
          appsv1.Selector :=
            Some {| metav1.MatchLabels := Some {[ "app" := app; "track" := "canary" ]} |};
          appsv1.Template :=
            {| v1.ObjectMeta :=
                 {| metav1.Name := "";
                    metav1.Labels := Some {[ "app" := app; "track" := "canary" ]};
                    metav1.Annotations := None |};
               v1.Spec :=
                 {| v1.Containers := [ container app image ]; v1.Volumes := [] |} |} |};
     appsv1.Status := {| appsv1.AvailableReplicas := 0 |} |}.

Definition request (tag : string) (replicas : Z) : result CanaryCreateRequest :=
  Success {| Tag := tag; ReqReplicas := replicas |}.
End Manifest.

(** ** The vocabulary of the properties *)

(** The [track] key of the selector of a routing service. *)
Definition selector_track (svc : v1.Service) : option string :=
  map_lookup (v1.Selector (v1.SvcSpec svc)) "track".

(** The options of the list call of [GetAppState]: the selector [app=name]. *)
Definition app_options (name : string) : metav1.ListOptions :=
  {| metav1.LabelSelector_ := {| metav1.MatchLabels := Some {[ "app" := name ]} |} |}.

(** The opt-in annotation parses as the boolean true. *)
Definition opted_in (v : appsv1.Deployment) : Prop :=
  ParseBool (map_index (appsv1.GetAnnotations v) "devops-tool-htmx") = Some true.

(** The object of the filter of [GetAppState]: opted in, and holding the
    key [track] among its labels, whatever the value. *)
Definition surfaced (v : appsv1.Deployment) : Prop :=
  opted_in v /\ is_Some (map_lookup (appsv1.GetLabels v) "track").

#[global] Instance surfaced_dec (v : appsv1.Deployment) : Decision (surfaced v).
Proof. unfold surfaced, opted_in. apply _. Defined.

(** The containers a workload declares. *)
Definition containers_of (v : appsv1.Deployment) : list v1.Container :=
  v1.Containers (v1.Spec (appsv1.Template (appsv1.Spec v))).

(** The three places of a workload that hold its track. *)
Definition object_track (d : appsv1.Deployment) : option string :=
  map_lookup (appsv1.GetLabels d) "track".

Definition pod_selector_track (d : appsv1.Deployment) : option string :=
  sel ← appsv1.Selector (appsv1.Spec d);
  map_lookup (metav1.MatchLabels sel) "track".

Definition pod_template_track (d : appsv1.Deployment) : option string :=
  map_lookup (metav1.Labels (v1.ObjectMeta (appsv1.Template (appsv1.Spec d)))) "track".

(** The image of the first declared container. *)
Definition first_image (v : appsv1.Deployment) : option string :=
  v1.Image <$> head (containers_of v).

(** No byte of the string is a colon. *)
Definition colon_free (s : string) : Prop :=
  ~ In ":"%char (list_ascii_of_string s).

(** The handlers run against the in-memory cluster. *)
Definition spawn (c : Cluster.t) (name randomName : string)
    (body : result CanaryCreateRequest) : outcome AppStateResponse * Cluster.t :=
  create_canary Cluster.clientset name randomName body c.

Definition switch (c : Cluster.t) (name : string) (enabled : bool)
    : outcome AppStateResponse * Cluster.t :=
  set_canary Cluster.clientset name enabled c.

(** The name the handler gives the canary. *)
Definition canary_name (name randomName : string) : string :=
  name ++ "-canary-" ++ ReplaceAll randomName "_" "-".

(** The primary has what the handler writes into: a pod selector with
    match labels, pod-template labels, and a first container. *)
Definition spawnable (deployment : appsv1.Deployment) : Prop :=
  (exists sel, appsv1.Selector (appsv1.Spec deployment) = Some sel /\
               is_Some (metav1.MatchLabels sel)) /\
  is_Some (metav1.Labels (v1.ObjectMeta (appsv1.Template (appsv1.Spec deployment)))) /\
  containers_of deployment <> [].

(** ** The index handler *)

(** The loop of the handler of [GET /]: [apps[app] = true] for every
    workload whose [app] label is not the empty string. *)
Fixpoint collect_apps (items : list appsv1.Deployment) (apps : gmap string bool)
    : gmap string bool :=
  match items with
  | [] => apps
  | v :: rest =>
      let app := map_index (appsv1.GetLabels v) "app" in
      if negb (app =? "")%string then collect_apps rest (<[app := true]> apps)
      else collect_apps rest apps
  end.

(** The handler of [GET /]: the [Apps] it hands to the view. The list call
    has empty options. [for k := range apps] visits the keys in an order
    Go leaves open; the model visits them in the order of [map_to_list]. *)
Definition index {W} (clientset : Clientset W) (w : W) : outcome (list string) :=
  let apps := ∅ in
  deployments ← try (Deployments_List clientset w
                       {| metav1.LabelSelector_ := {| metav1.MatchLabels := None |} |});
  let apps := collect_apps deployments apps in
  let keys := (map_to_list apps).*1 in
  mret keys.

(** ** More of the vocabulary *)

(** The workload has what [asCustomDeployment] reads without a check: a
    first container and a replica count. *)
Definition convertible (v : appsv1.Deployment) : Prop :=
  containers_of v <> [] /\ is_Some (appsv1.Replicas (appsv1.Spec v)).

(** No byte of the string is an underscore. Object names of the
    orchestrator may not hold one. *)
Definition underscore_free (s : string) : Prop :=
  ~ In "_"%char (list_ascii_of_string s).

(** The labels of the pod selector and of the pod template. *)
Definition pod_selector_labels (d : appsv1.Deployment) : gomap :=
  sel ← appsv1.Selector (appsv1.Spec d); metav1.MatchLabels sel.

Definition pod_template_labels (d : appsv1.Deployment) : gomap :=
  metav1.Labels (v1.ObjectMeta (appsv1.Template (appsv1.Spec d))).

(** More clusters and workloads to run the handlers on. *)
Module Cases.
(** A workload with any specification. *)
Definition workload_with (name : string) (labels : gomap) (replicas : option Z)
    (selector : option metav1.LabelSelector) (templateLabels : gomap)
    (containers : list v1.Container) (volumes : list string) : appsv1.Deployment :=
  {| appsv1.ObjectMeta :=
       {| metav1.Name := name;
          metav1.Labels := labels;
          metav1.Annotations := Manifest.opt_in |};
     appsv1.Spec :=
       {| appsv1.Replicas := replicas;
          appsv1.Selector := selector;
          appsv1.Template :=
            {| v1.ObjectMeta :=
                 {| metav1.Name := "";
                    metav1.Labels := templateLabels;
                    metav1.Annotations := None |};
               v1.Spec := {| v1.Containers := containers; v1.Volumes := volumes |} |} |};
     appsv1.Status := {| appsv1.AvailableReplicas := 2 |} |}.

Definition main_labels : gomap := Some {[ "app" := "nginx"; "track" := "main" ]}.

(** The primary of the manifest with a sidecar, an environment and a volume. *)
Definition rich : appsv1.Deployment :=
  workload_with "nginx" main_labels (Some 3)
    (Some {| metav1.MatchLabels := main_labels |}) main_labels
    [ {| v1.Name := "nginx"; v1.Image := "nginx:1.25.0-alpine";
         v1.Env := [("MODE", "prod")] |};
      {| v1.Name := "sidecar"; v1.Image := "envoy:1.30"; v1.Env := [] |} ]
    [ "cache" ].

(** The canary the handler makes of it, for the tag [beta] and one replica. *)
Definition canary_labels : gomap := Some {[ "app" := "nginx"; "track" := "canary" ]}.

Definition rich_canary : appsv1.Deployment :=
  {| appsv1.ObjectMeta :=
       {| metav1.Name := "nginx-canary-happy-fox";
          metav1.Labels := canary_labels;
          metav1.Annotations := Manifest.opt_in |};
     appsv1.Spec :=
       {| appsv1.Replicas := Some 1;
          appsv1.Selector := Some {| metav1.MatchLabels := canary_labels |};
          appsv1.Template :=
            {| v1.ObjectMeta :=
                 {| metav1.Name := "";
                    metav1.Labels := canary_labels;
                    metav1.Annotations := None |};
               v1.Spec :=
                 {| v1.Containers :=
                      [ {| v1.Name := "nginx"; v1.Image := "nginx:beta";
                           v1.Env := [("MODE", "prod")] |};
                        {| v1.Name := "sidecar"; v1.Image := "envoy:1.30"; v1.Env := [] |} ];
                    v1.Volumes := [ "cache" ] |} |} |};
     appsv1.Status := {| appsv1.AvailableReplicas := 0 |} |}.

(** A workload with no replica count. *)
Definition no_replicas : appsv1.Deployment :=
  workload_with "nginx" main_labels None
    (Some {| metav1.MatchLabels := main_labels |}) main_labels
    [ Manifest.container "nginx" "nginx:1.25.0-alpine" ] [].

(** A workload whose pod selector has match expressions only. *)
Definition no_match_labels : appsv1.Deployment :=
  workload_with "nginx" main_labels (Some 3)
    (Some {| metav1.MatchLabels := None |}) main_labels
    [ Manifest.container "nginx" "nginx:1.25.0-alpine" ] [].

(** A workload that did not opt in and has no track. *)
Definition unmanaged (name app : string) : appsv1.Deployment :=
  Manifest.workload name (Some {[ "app" := app ]}) None
    [ Manifest.container name "busybox" ].

(** A workload of the application whose annotation is no boolean and
    that declares no container. *)
Definition broken : appsv1.Deployment :=
  Manifest.workload "broken" main_labels (Some {[ "devops-tool-htmx" := "yes" ]}) [].

(** A workload with no labels at all. *)
Definition unlabelled : appsv1.Deployment :=
  Manifest.workload "job" None None [ Manifest.container "job" "busybox" ].

(** The manifest without the endpoints object. *)
Definition no_endpoints : Cluster.t :=
  {| Cluster.deployments := [ Manifest.primary "nginx" "nginx:1.25.0-alpine" ];
     Cluster.services := {[ "nginx" := Manifest.service main_labels ]};
     Cluster.endpoints := ∅ |}.

(** Endpoints in two subsets, and an address that names no pod. *)
Definition address (ip pod : string) : v1.EndpointAddress :=
  {| v1.IP := ip; v1.TargetRef := Some {| v1.RefName := pod |} |}.

Definition bare_address (ip : string) : v1.EndpointAddress :=
  {| v1.IP := ip; v1.TargetRef := None |}.

Definition two_subsets : v1.Endpoints :=
  {| v1.Subsets :=
       [ {| v1.Addresses := [ address "10.0.0.1" "nginx-0"; address "10.0.0.2" "nginx-1" ] |};
         {| v1.Addresses := [ address "10.0.0.3" "nginx-2" ] |} ] |}.

Definition with_endpoints (e : v1.Endpoints) : Cluster.t :=
  {| Cluster.deployments := [ Manifest.primary "nginx" "nginx:1.25.0-alpine" ];
     Cluster.services := {[ "nginx" := Manifest.service main_labels ]};
     Cluster.endpoints := {[ "nginx" := e ]} |}.

Definition with_workloads (ds : list appsv1.Deployment) : Cluster.t :=
  {| Cluster.deployments := ds;
     Cluster.services := {[ "nginx" := Manifest.service main_labels ]};
     Cluster.endpoints := {[ "nginx" := Manifest.pods "nginx" ]} |}.
End Cases.

(** ** Go values: lemmas *)

Lemma map_index_lookup (m : gomap) (k : string) :
  map_index m k = default "" (map_lookup m k).
Proof. by destruct m. Qed.

Lemma map_has_lookup (m : gomap) (k : string) :
  map_has m k = true <-> is_Some (map_lookup m k).
Proof.
  destruct m as [g|]; simpl.
  - by rewrite bool_decide_eq_true.
  - split; [done | by intros [? ?]].
Qed.

Lemma bind_Ok {A B} (m : outcome A) (f : A -> outcome B) (b : B) :
  m ≫= f = Ok b <-> exists a, m = Ok a /\ f a = Ok b.
Proof.
  destruct m as [a|e|p]; simpl; split; try done.
  - intros H. by exists a.
  - by intros (a' & [= ->] & H).
  - by intros (a' & [=] & _).
  - by intros (a' & [=] & _).
Qed.

Lemma try_Ok {A} (r : result A) (a : A) : try r = Ok a <-> r = Success a.
Proof. destruct r; simpl; split; congruence. Qed.

Example nginx_state :
  GetAppState Cluster.clientset "nginx" Manifest.nginx
  = Ok {| CanaryEnabled := false;
          Deployments := [ {| Name := "nginx"; Image := "nginx:1.25.0-alpine";
                              Track := "main"; Replicas := 3; AvailableReplicas := 3 |} ];
          Endpoints := [ {| TargetPod := "nginx-0"; Ip := "10.0.0.1" |} ] |}.
Proof. vm_compute. reflexivity. Qed.

(** ** The state projector: lemmas *)

Section Projector.
Context {W : Type} (k8s : Clientset W).

Lemma app_options_eq (name : string) :
  {| metav1.LabelSelector_ :=
       metav1.AddLabelToSelector {| metav1.MatchLabels := None |} "app" name |}
  = app_options name.
Proof. reflexivity. Qed.

(** A read returns a state exactly when the three fetches and the two
    conversions succeed, and the state is made of their values. *)
Lemma GetAppState_Ok (name : string) (w : W) (st : AppStateResponse) :
  GetAppState k8s name w = Ok st <->
  exists items endpoint svc ds es,
    Deployments_List k8s w (app_options name) = Success items /\
    Endpoints_Get k8s w name = Success endpoint /\
    Services_Get k8s w name = Success svc /\
    asCustomDeployment (managedDeployments items) = Ok ds /\
    asCustomEndpoint (addresses_of endpoint) = Ok es /\
    st = {| CanaryEnabled := canaryEnabled svc; Deployments := ds; Endpoints := es |}.
Proof.
  unfold GetAppState. rewrite app_options_eq.
  split.
  - intros H.
    apply bind_Ok in H as (items & Hl & H). apply try_Ok in Hl.
    apply bind_Ok in H as (endpoint & He & H). apply try_Ok in He.
    apply bind_Ok in H as (svc & Hs & H). apply try_Ok in Hs.
    apply bind_Ok in H as (ds & Hd & H).
    apply bind_Ok in H as (es & Hes & H).
    injection H as <-. by exists items, endpoint, svc, ds, es.
  - intros (items & endpoint & svc & ds & es & -> & -> & -> & Hd & He & ->).
    simpl. rewrite Hd. simpl. by rewrite He.
Qed.

(** A fetch that fails ends the read with the error of that fetch. *)
Lemma GetAppState_list_fails (name : string) (w : W) (e : error) :
  Deployments_List k8s w (app_options name) = Failure e ->
  GetAppState k8s name w = Err e.
Proof. intros H. unfold GetAppState. by rewrite app_options_eq, H. Qed.

Lemma GetAppState_endpoints_fail (name : string) (w : W) items (e : error) :
  Deployments_List k8s w (app_options name) = Success items ->
  Endpoints_Get k8s w name = Failure e ->
  GetAppState k8s name w = Err e.
Proof.
  intros Hl He. unfold GetAppState. rewrite app_options_eq, Hl. simpl.
  by rewrite He.
Qed.

Lemma GetAppState_service_fails (name : string) (w : W) items endpoint (e : error) :
  Deployments_List k8s w (app_options name) = Success items ->
  Endpoints_Get k8s w name = Success endpoint ->
  Services_Get k8s w name = Failure e ->
  GetAppState k8s name w = Err e.
Proof.
  intros Hl He Hs. unfold GetAppState. rewrite app_options_eq, Hl. simpl.
  rewrite He. simpl. by rewrite Hs.
Qed.
End Projector.

Lemma canaryEnabled_false (svc : v1.Service) :
  canaryEnabled svc = false <-> selector_track svc = Some "main".
Proof.
  unfold canaryEnabled, selector_track. rewrite map_index_lookup.
  rewrite negb_false_iff, String.eqb_eq.
  destruct (map_lookup _ _) as [t|]; simpl; split; congruence.
Qed.

(** C1: the [canaryEnabled] field of a state the projector returns is
    false if and only if the selector of the routing service holds the
    key [track] with exactly the value ["main"], and true if and only if
    the key is absent or holds any other value. *)
Theorem C1_canaryEnabled_iff_track_not_main {W} (k8s : Clientset W)
    (name : string) (w : W) (svc : v1.Service) (st : AppStateResponse) :
  Services_Get k8s w name = Success svc ->
  GetAppState k8s name w = Ok st ->
  (CanaryEnabled st = false <-> selector_track svc = Some "main") /\
  (CanaryEnabled st = true <->
     selector_track svc = None \/
     exists t, selector_track svc = Some t /\ t <> "main").
Proof.
  intros Hsvc Hst.
  apply GetAppState_Ok in Hst as (? & ? & svc' & ? & ? & _ & _ & Hsvc' & _ & _ & ->).
  rewrite Hsvc in Hsvc'. injection Hsvc' as <-. simpl.
  pose proof (canaryEnabled_false svc) as Hf.
  split; [exact Hf |].
  destruct (canaryEnabled svc); destruct (selector_track svc) as [t|].
  - split; [intros _; right; exists t; split; [done |] | done].
    intros ->. by destruct Hf as [_ Hf]; specialize (Hf eq_refl).
  - split; [by left | done].
  - destruct Hf as [Hf _]. specialize (Hf eq_refl). injection Hf as ->.
    split; [done |]. intros [? | (t & [= <-] & Ht)]; done.
  - destruct Hf as [Hf _]. by specialize (Hf eq_refl).
Qed.

Lemma C1_witness :
  CanaryEnabled
    {| CanaryEnabled := true;
       Deployments := [ {| Name := "nginx"; Image := "nginx:1.25.0-alpine";
                           Track := "main"; Replicas := 3; AvailableReplicas := 3 |} ];
       Endpoints := [ {| TargetPod := "nginx-0"; Ip := "10.0.0.1" |} ] |} = true <->
  selector_track (Manifest.service (Some {[ "app" := "nginx" ]})) = None \/
  exists t, selector_track (Manifest.service (Some {[ "app" := "nginx" ]})) = Some t
            /\ t <> "main".
Proof.
  refine (proj2 (C1_canaryEnabled_iff_track_not_main Cluster.clientset "nginx"
                   Manifest.nginx_enabled _ _ _ _)).
  - vm_compute. reflexivity.
  - vm_compute. reflexivity.
Defined.

(** ** The conversions: lemmas *)

Lemma customDeployment_Ok (v : appsv1.Deployment) (d : Deployment) :
  customDeployment v = Ok d ->
  first_image v = Some (Image d) /\
  Name d = appsv1.GetName v /\
  Track d = map_index (appsv1.GetLabels v) "track".
Proof.
  unfold customDeployment, first_image, containers_of.
  destruct (v1.Containers _) as [|c cs]; [done |]. simpl.
  destruct (appsv1.Replicas _); [| done]. simpl.
  by intros [= <-].
Qed.

Lemma customDeployment_total (v : appsv1.Deployment) :
  containers_of v <> [] -> is_Some (appsv1.Replicas (appsv1.Spec v)) ->
  exists d, customDeployment v = Ok d.
Proof.
  unfold customDeployment, containers_of.
  destruct (v1.Containers _) as [|c cs]; [done |]. intros _ [r ->]. simpl. eauto.
Qed.

Lemma customDeployment_no_container (v : appsv1.Deployment) :
  containers_of v = [] -> customDeployment v = Panic IndexOutOfRange.
Proof. unfold customDeployment, containers_of. by intros ->. Qed.

Lemma customDeployment_not_Err (v : appsv1.Deployment) (e : error) :
  customDeployment v <> Err e.
Proof.
  unfold customDeployment.
  destruct (v1.Containers _); [done |]. simpl.
  by destruct (appsv1.Replicas _).
Qed.

Lemma asCustomDeployment_Ok (l : list appsv1.Deployment) (ds : list Deployment) :
  asCustomDeployment l = Ok ds <->
  Forall2 (fun v d => customDeployment v = Ok d) l ds.
Proof.
  revert ds. induction l as [|v l IH]; intros ds; simpl.
  - split.
    + intros [= <-]. constructor.
    + by inversion 1.
  - rewrite bind_Ok. split.
    + intros (d & Hd & H). apply bind_Ok in H as (ds' & Hds & [= <-]).
      constructor; [done | by apply IH].
    + inversion 1 as [|? d ? ds' Hd Hds]; subst.
      exists d. split; [done |]. apply IH in Hds. by rewrite Hds.
Qed.

Lemma asCustomDeployment_not_Err (l : list appsv1.Deployment) (e : error) :
  asCustomDeployment l <> Err e.
Proof.
  induction l as [|v l IH]; simpl; [done |].
  pose proof (customDeployment_not_Err v e) as Hv.
  destruct (customDeployment v); simpl; [| by intros [= ->] | done].
  by destruct (asCustomDeployment l).
Qed.

Lemma asCustomDeployment_panics (l : list appsv1.Deployment) (v : appsv1.Deployment) :
  v ∈ l -> containers_of v = [] -> exists p, asCustomDeployment l = Panic p.
Proof.
  intros Hin Hv. induction l as [|x l IH]; [by apply elem_of_nil in Hin |].
  simpl. apply elem_of_cons in Hin as [<- | Hin].
  - rewrite (customDeployment_no_container v Hv). simpl. eauto.
  - pose proof (customDeployment_not_Err x) as Hx.
    destruct (customDeployment x) as [d|e|p]; simpl; [| by destruct (Hx e) | eauto].
    destruct (IH Hin) as [p ->]. simpl. eauto.
Qed.

Lemma asCustomDeployment_total (l : list appsv1.Deployment) :
  Forall (fun v => containers_of v <> [] /\ is_Some (appsv1.Replicas (appsv1.Spec v))) l ->
  exists ds, asCustomDeployment l = Ok ds.
Proof.
  induction 1 as [|v l [Hc Hr] _ [ds IH]]; simpl; [by eexists |].
  destruct (customDeployment_total v Hc Hr) as [d ->]. simpl. rewrite IH. simpl. eauto.
Qed.

Lemma asCustomEndpoint_not_Err (l : list v1.EndpointAddress) (e : error) :
  asCustomEndpoint l <> Err e.
Proof.
  induction l as [|v l IH]; simpl; [done |].
  unfold customEndpoint. destruct (v1.TargetRef v); simpl; [| done].
  by destruct (asCustomEndpoint l).
Qed.

Lemma asCustomEndpoint_total (l : list v1.EndpointAddress) :
  Forall (fun a => is_Some (v1.TargetRef a)) l ->
  exists es, asCustomEndpoint l = Ok es.
Proof.
  induction 1 as [|a l [r Hr] _ [es IH]]; simpl; [by eexists |].
  unfold customEndpoint. rewrite Hr. simpl. rewrite IH. simpl. eauto.
Qed.

(** ** The filter: lemmas *)

Lemma managed_surfaced (v : appsv1.Deployment) : managed v = true <-> surfaced v.
Proof.
  unfold managed, surfaced, opted_in.
  rewrite <- map_has_lookup.
  destruct (ParseBool _) as [[|]|]; destruct (map_has _ _); simpl;
    split; (try done); intros [? ?]; done.
Qed.

Lemma managedDeployments_filter (items : list appsv1.Deployment) :
  managedDeployments items = filter surfaced items.
Proof.
  induction items as [|v items IH]; [done |]. simpl.
  rewrite filter_cons, IH.
  pose proof (managed_surfaced v) as Hv.
  destruct (managed v); case_decide; try done.
  - by destruct Hv as [Hv _]; specialize (Hv eq_refl).
  - by destruct Hv as [_ Hv]; specialize (Hv ltac:(done)).
Qed.

Section Fetched.
Context {W : Type} (k8s : Clientset W).

(** What the read comes to once the three fetches have succeeded. *)
Lemma GetAppState_fetched (name : string) (w : W) items endpoint svc :
  Deployments_List k8s w (app_options name) = Success items ->
  Endpoints_Get k8s w name = Success endpoint ->
  Services_Get k8s w name = Success svc ->
  GetAppState k8s name w =
    (ds ← asCustomDeployment (filter surfaced items);
     es ← asCustomEndpoint (addresses_of endpoint);
     mret {| CanaryEnabled := canaryEnabled svc; Deployments := ds; Endpoints := es |}).
Proof.
  intros Hl He Hs. unfold GetAppState.
  rewrite app_options_eq, Hl. simpl. rewrite He. simpl. rewrite Hs. simpl.
  by rewrite managedDeployments_filter.
Qed.

Lemma GetAppState_fetched_not_Err (name : string) (w : W) items endpoint svc (e : error) :
  Deployments_List k8s w (app_options name) = Success items ->
  Endpoints_Get k8s w name = Success endpoint ->
  Services_Get k8s w name = Success svc ->
  GetAppState k8s name w <> Err e.
Proof.
  intros Hl He Hs. rewrite (GetAppState_fetched _ _ _ _ _ Hl He Hs).
  pose proof (asCustomDeployment_not_Err (filter surfaced items) e) as Hd.
  destruct (asCustomDeployment _); simpl; [| by intros [= ->] | done].
  pose proof (asCustomEndpoint_not_Err (addresses_of endpoint) e) as He'.
  destruct (asCustomEndpoint _); simpl; [done | by intros [= ->] | done].
Qed.

Lemma GetAppState_deployments (name : string) (w : W) items (st : AppStateResponse) :
  Deployments_List k8s w (app_options name) = Success items ->
  GetAppState k8s name w = Ok st ->
  Forall2 (fun v d => customDeployment v = Ok d) (filter surfaced items) (Deployments st).
Proof.
  intros Hl Hst.
  apply GetAppState_Ok in Hst as (items' & ? & ? & ds & ? & Hl' & _ & _ & Hds & _ & ->).
  rewrite Hl in Hl'. injection Hl' as <-. simpl.
  apply asCustomDeployment_Ok. by rewrite <- managedDeployments_filter.
Qed.
End Fetched.

(** ** The state projector: properties *)

(** C2: of the workload objects the gateway lists for an application, the
    projector surfaces exactly those whose [devops-tool-htmx] annotation
    parses as the boolean true and that hold the key [track] among their
    labels (whatever its value, the empty string included), in the order
    of the list; the others are left out, and once the three fetches have
    succeeded the read returns no error, whatever the list holds. The
    objects left out have no part in the read: what it returns is
    computed from the surfaced ones alone, and it returns a state as soon
    as those declare a container and a replica count and the addresses
    name their pods, however many others the list holds and whatever
    they lack. *)
Theorem C2_surfaces_opted_in_with_track_key {W} (k8s : Clientset W)
    (name : string) (w : W) (items : list appsv1.Deployment) :
  Deployments_List k8s w (app_options name) = Success items ->
  (forall st, GetAppState k8s name w = Ok st ->
     Forall2 (fun v d => customDeployment v = Ok d)
             (filter surfaced items) (Deployments st)) /\
  (forall endpoint svc e,
     Endpoints_Get k8s w name = Success endpoint ->
     Services_Get k8s w name = Success svc ->
     GetAppState k8s name w <> Err e) /\
  (forall endpoint svc,
     Endpoints_Get k8s w name = Success endpoint ->
     Services_Get k8s w name = Success svc ->
     GetAppState k8s name w =
       (ds ← asCustomDeployment (filter surfaced items);
        es ← asCustomEndpoint (addresses_of endpoint);
        mret {| CanaryEnabled := canaryEnabled svc;
                Deployments := ds; Endpoints := es |}) /\
     (Forall convertible (filter surfaced items) ->
      Forall (fun a => is_Some (v1.TargetRef a)) (addresses_of endpoint) ->
      exists st,
        GetAppState k8s name w = Ok st /\
        Forall2 (fun v d => customDeployment v = Ok d)
                (filter surfaced items) (Deployments st))).
Proof.
  intros Hl. split; [| split].
  - intros st Hst. by eapply GetAppState_deployments.
  - intros endpoint svc e He Hs. by eapply GetAppState_fetched_not_Err.
  - intros endpoint svc He Hs.
    pose proof (GetAppState_fetched k8s name w items endpoint svc Hl He Hs) as Heq.
    split; [done |]. intros Hds Hes.
    destruct (asCustomDeployment_total _ Hds) as [ds Hds'].
    destruct (asCustomEndpoint_total _ Hes) as [es Hes'].
    exists {| CanaryEnabled := canaryEnabled svc; Deployments := ds; Endpoints := es |}.
    split.
    + rewrite Heq, Hds'. simpl. by rewrite Hes'.
    + simpl. by apply asCustomDeployment_Ok.
Qed.

Lemma C2_witness :
  exists st,
    GetAppState Cluster.clientset "nginx"
      (Cases.with_workloads [ Cases.unmanaged "batch" "nginx";
                              Manifest.primary "nginx" "nginx:1.25.0-alpine";
                              Cases.broken ]) = Ok st /\
    Forall2 (fun v d => customDeployment v = Ok d)
      (filter surfaced [ Cases.unmanaged "batch" "nginx";
                         Manifest.primary "nginx" "nginx:1.25.0-alpine";
                         Cases.broken ])
      (Deployments st).
Proof.
  refine (proj2 (proj2 (proj2
            (C2_surfaces_opted_in_with_track_key Cluster.clientset "nginx"
               (Cases.with_workloads [ Cases.unmanaged "batch" "nginx";
                                       Manifest.primary "nginx" "nginx:1.25.0-alpine";
                                       Cases.broken ])
               [ Cases.unmanaged "batch" "nginx";
                 Manifest.primary "nginx" "nginx:1.25.0-alpine";
                 Cases.broken ] _))
            (Manifest.pods "nginx") (Manifest.service Cases.main_labels) _ _) _ _).
  - vm_compute. reflexivity.
  - vm_compute. reflexivity.
  - vm_compute. reflexivity.
  - change (Forall convertible [ Manifest.primary "nginx" "nginx:1.25.0-alpine" ]).
    constructor; [| constructor]. split; [discriminate | by eexists].
  - constructor; [by eexists | constructor].
Defined.

(** C2 as stated does not hold: a workload that opted in and whose
    [track] label is the empty string is surfaced. *)
Lemma C2_counterexample_blank_track_surfaced :
  map_index (appsv1.GetLabels Manifest.blank_track) "track" = "" /\
  GetAppState Cluster.clientset "nginx" (Manifest.with_workload Manifest.blank_track)
  = Ok {| CanaryEnabled := false;
          Deployments := [ {| Name := "nginx"; Image := "nginx:1.25.0-alpine";
                              Track := ""; Replicas := 3; AvailableReplicas := 3 |} ];
          Endpoints := [ {| TargetPod := "nginx-0"; Ip := "10.0.0.1" |} ] |}.
Proof. split; vm_compute; reflexivity. Qed.

(** C7: once the three fetches have succeeded, every entry of a state the
    projector returns holds the image of the first declared container of
    its object, and the read returns a state when every surfaced object
    declares a container and a replica count and every address names its
    pod; a surfaced object that declares no container ends the read in a
    run-time panic: no error is returned, and no state. *)
Theorem C7_image_of_first_container_else_panic {W} (k8s : Clientset W)
    (name : string) (w : W) items endpoint svc :
  Deployments_List k8s w (app_options name) = Success items ->
  Endpoints_Get k8s w name = Success endpoint ->
  Services_Get k8s w name = Success svc ->
  (forall st, GetAppState k8s name w = Ok st ->
     Forall2 (fun v d => first_image v = Some (Image d))
             (filter surfaced items) (Deployments st)) /\
  (Forall (fun v => containers_of v <> [] /\ is_Some (appsv1.Replicas (appsv1.Spec v)))
          (filter surfaced items) ->
   Forall (fun a => is_Some (v1.TargetRef a)) (addresses_of endpoint) ->
   exists st, GetAppState k8s name w = Ok st) /\
  (forall v, v ∈ items -> surfaced v -> containers_of v = [] ->
     exists p, GetAppState k8s name w = Panic p).
Proof.
  intros Hl He Hs. split; [| split].
  - intros st Hst.
    eapply Forall2_impl; [by eapply GetAppState_deployments |].
    intros v d Hd. by apply customDeployment_Ok in Hd as [? _].
  - intros Hds Hes. rewrite (GetAppState_fetched _ _ _ _ _ _ Hl He Hs).
    destruct (asCustomDeployment_total _ Hds) as [ds ->].
    destruct (asCustomEndpoint_total _ Hes) as [es ->]. simpl. eauto.
  - intros v Hin Hv Hc. rewrite (GetAppState_fetched _ _ _ _ _ _ Hl He Hs).
    destruct (asCustomDeployment_panics (filter surfaced items) v) as [p ->];
      [by apply list_elem_of_filter | done |].
    simpl. eauto.
Qed.

Lemma C7_witness :
  exists p,
    GetAppState Cluster.clientset "nginx" (Manifest.with_workload Manifest.no_container)
    = Panic p.
Proof.
  refine (proj2 (proj2 (C7_image_of_first_container_else_panic Cluster.clientset "nginx"
            (Manifest.with_workload Manifest.no_container)
            [ Manifest.no_container ] (Manifest.pods "nginx")
            (Manifest.service (Some {[ "app" := "nginx"; "track" := "main" ]}))
            _ _ _)) Manifest.no_container _ _ _).
  - vm_compute. reflexivity.
  - vm_compute. reflexivity.
  - vm_compute. reflexivity.
  - apply list_elem_of_here.
  - split; [vm_compute; reflexivity | by eexists].
  - reflexivity.
Defined.

(** C7 as stated does not hold: with a surfaced object that declares
    no container the read panics on [Containers[0]]; it does not return
    the error [MalformedWorkload]. *)
Lemma C7_counterexample_no_container_panics :
  GetAppState Cluster.clientset "nginx" (Manifest.with_workload Manifest.no_container)
  = Panic IndexOutOfRange /\
  GetAppState Cluster.clientset "nginx" (Manifest.with_workload Manifest.no_container)
  <> Err MalformedWorkload.
Proof. split; [vm_compute; reflexivity | vm_compute; discriminate]. Qed.

(** C9: when the workload list, the endpoint set or the routing service
    cannot be fetched, the read returns an error and no state; and when
    the endpoint set cannot be fetched after the workload list was, the
    read returns the error of that fetch. *)
Theorem C9_failed_fetch_gives_no_state {W} (k8s : Clientset W) (name : string) (w : W) :
  ((exists e, Deployments_List k8s w (app_options name) = Failure e) \/
   (exists e, Endpoints_Get k8s w name = Failure e) \/
   (exists e, Services_Get k8s w name = Failure e) ->
   (exists e, GetAppState k8s name w = Err e) /\
   (forall st, GetAppState k8s name w <> Ok st)) /\
  (forall items e,
     Deployments_List k8s w (app_options name) = Success items ->
     Endpoints_Get k8s w name = Failure e ->
     GetAppState k8s name w = Err e).
Proof.
  split.
  - intros Hfail.
    assert (exists e, GetAppState k8s name w = Err e) as [e He].
    { destruct (Deployments_List k8s w (app_options name)) as [items|e] eqn:Hl;
        [| exists e; by apply GetAppState_list_fails].
      destruct (Endpoints_Get k8s w name) as [endpoint|e] eqn:Hep;
        [| exists e; by eapply GetAppState_endpoints_fail].
      destruct (Services_Get k8s w name) as [svc|e] eqn:Hs;
        [| exists e; by eapply GetAppState_service_fails].
      by destruct Hfail as [[? ?] | [[? ?] | [? ?]]]. }
    split; [by exists e |]. intros st. by rewrite He.
  - intros items e Hl He. by eapply GetAppState_endpoints_fail.
Qed.

Lemma C9_witness :
  (exists e, GetAppState Cluster.clientset "ghost" Manifest.nginx = Err e) /\
  (forall st, GetAppState Cluster.clientset "ghost" Manifest.nginx <> Ok st).
Proof.
  refine (proj1 (C9_failed_fetch_gives_no_state Cluster.clientset "ghost" Manifest.nginx) _).
  right. left. exists NotFound. vm_compute. reflexivity.
Defined.

(** ** The image reference of the canary *)

Lemma colon_free_cons (c : ascii) (s : string) :
  colon_free (String c s) <-> c <> ":"%char /\ colon_free s.
Proof. unfold colon_free. simpl. split; [intros H; split |]; intuition congruence. Qed.

Lemma prefix_colon (c : ascii) (s : string) :
  String.prefix ":" (String c s) = Ascii.eqb c ":".
Proof.
  change (String.prefix ":" (String c s))
    with (if ascii_dec ":" c then String.prefix "" s else false).
  destruct (ascii_dec ":" c) as [<- | Hne]; [by destruct s |].
  symmetry. apply Ascii.eqb_neq. congruence.
Qed.

Lemma Index_colon_free (s : string) : colon_free s -> Index s ":" = None.
Proof.
  induction s as [|c s IH]; [done |].
  intros [Hc Hs]%colon_free_cons.
  cbn [Index]. rewrite prefix_colon.
  apply Ascii.eqb_neq in Hc as ->. by rewrite (IH Hs).
Qed.

Lemma append_nil_l (s : string) : "" ++ s = s.
Proof. reflexivity. Qed.

Lemma append_cons (c : ascii) (s t : string) : String c s ++ t = String c (s ++ t).
Proof. reflexivity. Qed.

Lemma Index_first_colon (repo rest : string) :
  colon_free repo ->
  Index (repo ++ ":" ++ rest) ":" = Some (String.length repo).
Proof.
  induction repo as [|c repo IH].
  { intros _. rewrite append_nil_l, append_cons, append_nil_l.
    cbn [Index]. by rewrite prefix_colon. }
  intros [Hc Hs]%colon_free_cons.
  rewrite append_cons. cbn [Index]. rewrite prefix_colon.
  apply Ascii.eqb_neq in Hc as ->. by rewrite (IH Hs).
Qed.

Lemma substring_append_left (a b : string) :
  substring 0 (String.length a) (a ++ b) = a.
Proof.
  induction a as [|c a IH].
  - rewrite append_nil_l. by destruct b.
  - rewrite append_cons. simpl. by rewrite IH.
Qed.

Lemma length_append_pos (repo rest : string) :
  Nat.min 2 (String.length (repo ++ ":" ++ rest) + 1) = 2%nat.
Proof.
  destruct repo; rewrite ?append_nil_l, !append_cons; cbn [String.length]; lia.
Qed.

Lemma SplitN_first_colon (repo rest : string) :
  colon_free repo ->
  head (SplitN (repo ++ ":" ++ rest) ":" 2) = Some repo.
Proof.
  intros Hrepo. unfold SplitN. rewrite length_append_pos. simpl.
  rewrite (Index_first_colon repo rest Hrepo). simpl.
  by rewrite substring_append_left.
Qed.

Lemma SplitN_colon_free (image : string) :
  colon_free image -> SplitN image ":" 2 = [image].
Proof.
  intros Himage. unfold SplitN.
  destruct (Nat.min 2 (String.length image + 1) - 1)%nat; [done |].
  simpl. by rewrite (Index_colon_free image Himage).
Qed.

Lemma index0_head {A} (l : list A) (a : A) : head l = Some a -> index0 l = Ok a.
Proof. destruct l; simpl; congruence. Qed.

(** What the handler built, when it did build the canary object. *)
Lemma canary_deployment_Ok (name randomName : string) (req : CanaryCreateRequest)
    (deployment d : appsv1.Deployment) :
  canary_deployment name randomName req deployment = Ok d ->
  exists sel ml tl c0 image,
    appsv1.Selector (appsv1.Spec deployment) = Some sel /\
    metav1.MatchLabels sel = Some ml /\
    metav1.Labels (v1.ObjectMeta (appsv1.Template (appsv1.Spec deployment))) = Some tl /\
    head (containers_of deployment) = Some c0 /\
    canary_image (v1.Image c0) (Tag req) = Ok image /\
    appsv1.GetName d = name ++ "-canary-" ++ ReplaceAll randomName "_" "-" /\
    appsv1.GetLabels d = Some (<["track" := "canary"]> {[ "app" := "nginx" ]}) /\
    appsv1.GetAnnotations d = Some {[ "devops-tool-htmx" := "true" ]} /\
    appsv1.Replicas (appsv1.Spec d) = Some (ReqReplicas req) /\
    appsv1.Selector (appsv1.Spec d)
      = Some {| metav1.MatchLabels := Some (<["track" := "canary"]> ml) |} /\
    metav1.Labels (v1.ObjectMeta (appsv1.Template (appsv1.Spec d)))
      = Some (<["track" := "canary"]> tl) /\
    containers_of d = set_image0 (containers_of deployment) image.
Proof.
  unfold canary_deployment, containers_of. simpl.
  destruct (appsv1.Selector _) as [sel|]; [| done]. simpl.
  destruct (metav1.MatchLabels sel) as [ml|] eqn:Hml; [| done]. simpl.
  destruct (metav1.Labels _) as [tl|]; [| done]. simpl.
  destruct (v1.Containers _) as [|c0 cs]; [done |]. simpl.
  destruct (canary_image _ _) as [image| |] eqn:Himage; [| done | done]. simpl.
  unfold mret, outcome_ret. intros [= <-].
  exists sel, ml, tl, c0, image. repeat split; done.
Qed.

(** C3: the image reference of the canary is what stands before the first
    colon of the reference of the primary, a colon, and the tag; a
    reference with no colon is kept whole before the colon and the tag.
    The object the handler builds holds that reference in its first
    container. *)
Theorem C3_image_is_repo_colon_tag :
  (forall repo rest tag, colon_free repo ->
     canary_image (repo ++ ":" ++ rest) tag = Ok (repo ++ ":" ++ tag)) /\
  (forall image tag, colon_free image ->
     canary_image image tag = Ok (image ++ ":" ++ tag)) /\
  (forall name randomName req deployment d image,
     canary_deployment name randomName req deployment = Ok d ->
     first_image deployment = Some image ->
     exists image',
       canary_image image (Tag req) = Ok image' /\ first_image d = Some image') /\
  canary_image "nginx:1.25.0-alpine" "beta" = Ok "nginx:beta" /\
  canary_image "myimage" "v2" = Ok "myimage:v2".
Proof.
  split; [| split; [| split; [| split]]].
  - intros repo rest tag Hrepo. unfold canary_image.
    by rewrite (index0_head _ _ (SplitN_first_colon repo rest Hrepo)).
  - intros image tag Himage. unfold canary_image.
    by rewrite (SplitN_colon_free image Himage).
  - intros name randomName req deployment d image Hd Himage.
    apply canary_deployment_Ok in Hd
      as (_ & _ & _ & c0 & image' & _ & _ & _ & Hc0 & Himage' & _ & _ & _ & _ & _ & _ & Hcs).
    unfold first_image in *. rewrite Hcs. rewrite Hc0 in Himage.
    injection Himage as <-. exists image'. split; [done |].
    by destruct (containers_of deployment).
  - reflexivity.
  - reflexivity.
Qed.

Lemma C3_witness :
  canary_image ("registry.local/nginx" ++ ":" ++ "1.25.0") "beta"
  = Ok ("registry.local/nginx" ++ ":" ++ "beta").
Proof.
  apply (proj1 C3_image_is_repo_colon_tag "registry.local/nginx" "1.25.0" "beta").
  unfold colon_free. simpl. intuition discriminate.
Defined.

(** The repository part of an image reference. *)

Lemma canary_image_first_colon (repo rest tag : string) :
  colon_free repo ->
  canary_image (repo ++ ":" ++ rest) tag = Ok (repo ++ ":" ++ tag).
Proof.
  intros Hrepo. unfold canary_image.
  by rewrite (index0_head _ _ (SplitN_first_colon repo rest Hrepo)).
Qed.

Lemma canary_image_colon_free (image tag : string) :
  colon_free image -> canary_image image tag = Ok (image ++ ":" ++ tag).
Proof.
  intros Himage. unfold canary_image. by rewrite (SplitN_colon_free image Himage).
Qed.

(** Every string has no colon, or a first one. *)
Lemma first_colon (s : string) :
  colon_free s \/
  exists repo rest, s = repo ++ ":" ++ rest /\ colon_free repo.
Proof.
  induction s as [|c s IH]; [left; by intros [] |].
  destruct (ascii_dec c ":") as [-> | Hc].
  - right. exists "", s. split; [done | by intros []].
  - destruct IH as [Hs | (repo & rest & -> & Hrepo)].
    + left. by apply colon_free_cons.
    + right. exists (String c repo), rest. split; [done | by apply colon_free_cons].
Qed.

Lemma canary_image_repo (image tag : string) :
  exists repo,
    colon_free repo /\
    (image = repo \/ exists rest, image = repo ++ ":" ++ rest) /\
    forall tag, canary_image image tag = Ok (repo ++ ":" ++ tag).
Proof.
  destruct (first_colon image) as [Himage | (repo & rest & -> & Hrepo)].
  - exists image. split; [done |]. split; [by left |].
    intros t. by apply canary_image_colon_free.
  - exists repo. split; [done |]. split; [right; by exists rest |].
    intros t. by apply canary_image_first_colon.
Qed.

(** ** The canary spawner on the in-memory cluster *)

Lemma genSplit_loop_head (s sep : string) (k : nat) :
  exists first rest, genSplit_loop s sep k = first :: rest.
Proof.
  destruct k as [|k]; simpl; [by eexists _, _ |].
  destruct (Index s sep); by eexists _, _.
Qed.

(** The image reference is computed for every reference and every tag,
    the empty tag included. *)
Lemma canary_image_total (image tag : string) :
  exists repo, canary_image image tag = Ok (repo ++ ":" ++ tag).
Proof.
  unfold canary_image, SplitN.
  destruct (genSplit_loop_head image ":" (Nat.min 2 (String.length image + 1) - 1))
    as (repo & rest & ->).
  by exists repo.
Qed.

Lemma canary_deployment_total (name randomName : string) (req : CanaryCreateRequest)
    (deployment : appsv1.Deployment) :
  spawnable deployment ->
  exists d, canary_deployment name randomName req deployment = Ok d.
Proof.
  intros ((sel & Hsel & [ml Hml]) & [tl Htl] & Hcs).
  unfold canary_deployment, containers_of in *. simpl.
  rewrite Hsel. simpl. rewrite Hml. simpl. rewrite Htl. simpl.
  destruct (v1.Containers _) as [|c0 cs]; [done |]. simpl.
  destruct (canary_image_total (v1.Image c0) (Tag req)) as [repo ->]. simpl. eauto.
Qed.

Lemma canary_tracks (name randomName : string) (req : CanaryCreateRequest)
    (deployment d : appsv1.Deployment) :
  canary_deployment name randomName req deployment = Ok d ->
  object_track d = Some "canary" /\
  pod_selector_track d = Some "canary" /\
  pod_template_track d = Some "canary".
Proof.
  intros Hd. apply canary_deployment_Ok in Hd
    as (sel & ml & tl & _ & _ & _ & _ & _ & _ & _ & _ & Hl & _ & _ & Hs & Ht & _).
  unfold object_track, pod_selector_track, pod_template_track.
  rewrite Hl, Hs, Ht. simpl.
  by rewrite !lookup_insert_eq.
Qed.

(** The handler leaves the cluster as it was, or with one more workload:
    the object it built. *)
Lemma spawn_cluster (c : Cluster.t) (name randomName : string)
    (body : result CanaryCreateRequest) :
  (spawn c name randomName body).2 = c \/
  exists req deployment d,
    body = Success req /\
    Cluster.get_deployment c name = Success deployment /\
    canary_deployment name randomName req deployment = Ok d /\
    List.find (Cluster.named (appsv1.GetName d)) (Cluster.deployments c) = None /\
    (spawn c name randomName body).2
      = {| Cluster.deployments := Cluster.deployments c ++ [d];
           Cluster.services := Cluster.services c;
           Cluster.endpoints := Cluster.endpoints c |} /\
    (spawn c name randomName body).1
      = GetAppState Cluster.clientset name (spawn c name randomName body).2.
Proof.
  unfold spawn, create_canary.
  destruct body as [req|e]; [| by left].
  cbn [Deployments_Get Deployments_Create Cluster.clientset].
  destruct (Cluster.get_deployment c name) as [deployment|e] eqn:Hget; [| by left].
  destruct (canary_deployment name randomName req deployment) as [d|e|p] eqn:Hd;
    [| by left | by left].
  unfold Cluster.create_deployment.
  destruct (List.find _ _) eqn:Hfind; [by left |].
  right. by exists req, deployment, d.
Qed.

Lemma spawn_created (c : Cluster.t) (name randomName : string)
    (body : result CanaryCreateRequest) (d : appsv1.Deployment) :
  Cluster.deployments (spawn c name randomName body).2 = (Cluster.deployments c ++ [d])%list ->
  exists req deployment,
    body = Success req /\
    Cluster.get_deployment c name = Success deployment /\
    canary_deployment name randomName req deployment = Ok d.
Proof.
  intros Hnew.
  destruct (spawn_cluster c name randomName body)
    as [Hsame | (req & deployment & d' & Hb & Hg & Hd & _ & Hc' & _)].
  - rewrite Hsame in Hnew. apply (f_equal length) in Hnew.
    rewrite length_app in Hnew. simpl in Hnew. lia.
  - rewrite Hc' in Hnew. simpl in Hnew. apply app_inv_head in Hnew as [= <-].
    by exists req, deployment.
Qed.

(** C8: a workload the create-canary handler adds to the cluster holds
    the value ["canary"] for the key [track] in its object labels, in the
    match labels of its pod selector and in the labels of its pod
    template: the three values are the same. *)
Theorem C8_canary_track_in_three_places (c : Cluster.t) (name randomName : string)
    (body : result CanaryCreateRequest) (d : appsv1.Deployment) :
  Cluster.deployments (spawn c name randomName body).2 = (Cluster.deployments c ++ [d])%list ->
  object_track d = Some "canary" /\
  pod_selector_track d = Some "canary" /\
  pod_template_track d = Some "canary".
Proof.
  intros (req & deployment & _ & _ & Hd)%spawn_created.
  by eapply canary_tracks.
Qed.

Lemma C8_witness :
  object_track (Manifest.canary "nginx" "nginx-canary-happy-fox" "nginx:beta" 1)
    = Some "canary" /\
  pod_selector_track (Manifest.canary "nginx" "nginx-canary-happy-fox" "nginx:beta" 1)
    = Some "canary" /\
  pod_template_track (Manifest.canary "nginx" "nginx-canary-happy-fox" "nginx:beta" 1)
    = Some "canary".
Proof.
  apply (C8_canary_track_in_three_places Manifest.nginx "nginx" "happy_fox"
           (Manifest.request "beta" 1)).
  vm_compute. reflexivity.
Defined.

(** ** Reading the state after a canary was created *)

Lemma list_selected (c : Cluster.t) (app : string) (d : appsv1.Deployment) :
  d ∈ Cluster.deployments c ->
  map_lookup (appsv1.GetLabels d) "app" = Some app ->
  exists items,
    Deployments_List Cluster.clientset c (app_options app) = Success items /\ d ∈ items.
Proof.
  intros Hin Happ. eexists. split; [reflexivity |].
  apply list_elem_of_In, filter_In. split; [by apply list_elem_of_In |].
  unfold Cluster.selected, app_options. simpl.
  apply bool_decide_eq_true. by apply map_Forall_singleton.
Qed.

Lemma surfaced_in_state {W} (k8s : Clientset W) (name : string) (w : W)
    (items : list appsv1.Deployment) (st : AppStateResponse) (v : appsv1.Deployment) :
  Deployments_List k8s w (app_options name) = Success items ->
  GetAppState k8s name w = Ok st ->
  v ∈ items -> surfaced v ->
  exists e, e ∈ Deployments st /\ customDeployment v = Ok e.
Proof.
  intros Hl Hst Hin Hv.
  pose proof (GetAppState_deployments k8s name w items st Hl Hst) as Hall.
  assert (v ∈ filter surfaced items) as Hkept by by apply list_elem_of_filter.
  apply list_elem_of_lookup_1 in Hkept as [i Hi].
  destruct (Forall2_lookup_l _ _ _ _ _ Hall Hi) as (e & He & Hve).
  exists e. split; [by eapply list_elem_of_lookup_2 | done].
Qed.

Lemma canary_surfaced (name randomName : string) (req : CanaryCreateRequest)
    (deployment d : appsv1.Deployment) :
  canary_deployment name randomName req deployment = Ok d ->
  map_lookup (appsv1.GetAnnotations d) "devops-tool-htmx" = Some "true" /\
  is_Some (object_track d) /\
  surfaced d.
Proof.
  intros Hd. pose proof (canary_tracks _ _ _ _ _ Hd) as (Ht & _).
  apply canary_deployment_Ok in Hd
    as (_ & _ & _ & _ & _ & _ & _ & _ & _ & _ & _ & _ & Ha & _).
  unfold surfaced, opted_in. rewrite map_index_lookup.
  fold (object_track d). rewrite Ht, Ha. by repeat split.
Qed.

(** C10: a workload the create-canary handler adds to the cluster carries
    the annotation [devops-tool-htmx] with the value ["true"] and a
    [track] label, so the filter of the projector keeps it: every state
    read that succeeds, on any cluster that holds the workload and for
    the application its [app] label names, has an entry for it, with the
    track ["canary"]. *)
Theorem C10_canary_is_never_filtered_out (c : Cluster.t) (name randomName : string)
    (body : result CanaryCreateRequest) (d : appsv1.Deployment) :
  Cluster.deployments (spawn c name randomName body).2 = (Cluster.deployments c ++ [d])%list ->
  map_lookup (appsv1.GetAnnotations d) "devops-tool-htmx" = Some "true" /\
  is_Some (object_track d) /\
  managed d = true /\
  (forall (later : Cluster.t) (app : string) (st : AppStateResponse),
     d ∈ Cluster.deployments later ->
     map_lookup (appsv1.GetLabels d) "app" = Some app ->
     GetAppState Cluster.clientset app later = Ok st ->
     exists e, e ∈ Deployments st /\ Name e = appsv1.GetName d /\ Track e = "canary").
Proof.
  intros (req & deployment & _ & _ & Hd)%spawn_created.
  destruct (canary_surfaced _ _ _ _ _ Hd) as (Ha & Ht & Hs).
  repeat split; [done | done | by apply managed_surfaced |].
  intros later app st Hin Happ Hst.
  destruct (list_selected later app d Hin Happ) as (items & Hl & Hitems).
  destruct (surfaced_in_state _ _ _ _ _ _ Hl Hst Hitems Hs) as (e & He & Hde).
  exists e. apply customDeployment_Ok in Hde as (_ & Hn & Htr).
  repeat split; [done | done |].
  rewrite Htr, map_index_lookup. fold (object_track d).
  by destruct (canary_tracks _ _ _ _ _ Hd) as (-> & _).
Qed.

Lemma C10_witness :
  exists e,
    e ∈ [ {| Name := "nginx"; Image := "nginx:1.25.0-alpine"; Track := "main";
             Replicas := 3; AvailableReplicas := 3 |};
          {| Name := "nginx-canary-happy-fox"; Image := "nginx:beta"; Track := "canary";
             Replicas := 1; AvailableReplicas := 0 |} ] /\
    Name e = "nginx-canary-happy-fox" /\
    Track e = "canary".
Proof.
  refine (proj2 (proj2 (proj2
            (C10_canary_is_never_filtered_out Manifest.nginx "nginx" "happy_fox"
               (Manifest.request "beta" 1)
               (Manifest.canary "nginx" "nginx-canary-happy-fox" "nginx:beta" 1) _)))
            {| Cluster.deployments :=
                 [ Manifest.primary "nginx" "nginx:1.25.0-alpine";
                   Manifest.canary "nginx" "nginx-canary-happy-fox" "nginx:beta" 1 ];
               Cluster.services := Cluster.services Manifest.nginx;
               Cluster.endpoints := Cluster.endpoints Manifest.nginx |}
            "nginx"
            {| CanaryEnabled := false;
               Deployments :=
                 [ {| Name := "nginx"; Image := "nginx:1.25.0-alpine"; Track := "main";
                      Replicas := 3; AvailableReplicas := 3 |};
                   {| Name := "nginx-canary-happy-fox"; Image := "nginx:beta";
                      Track := "canary"; Replicas := 1; AvailableReplicas := 0 |} ];
               Endpoints := [ {| TargetPod := "nginx-0"; Ip := "10.0.0.1" |} ] |}
            _ _ _).
  - vm_compute. reflexivity.
  - apply list_elem_of_further, list_elem_of_here.
  - vm_compute. reflexivity.
  - vm_compute. reflexivity.
Defined.

(** C5: the handler labels every canary [app=nginx], whatever the
    application is. For the application [web] the canary is created with
    the specification of the primary and the label [app=nginx], so the
    list call for [app=web] does not return it and the state read that
    follows shows the primary alone. *)
Theorem C5_canary_of_web_is_labelled_nginx :
  (spawn Manifest.web "web" "happy_fox" (Manifest.request "canary" 1)).2
  = {| Cluster.deployments :=
         [ Manifest.primary "web" "web:1.0";
           Manifest.canary "web" "web-canary-happy-fox" "web:canary" 1 ];
       Cluster.services := Cluster.services Manifest.web;
       Cluster.endpoints := Cluster.endpoints Manifest.web |} /\
  map_lookup
    (appsv1.GetLabels (Manifest.canary "web" "web-canary-happy-fox" "web:canary" 1)) "app"
  = Some "nginx" /\
  (spawn Manifest.web "web" "happy_fox" (Manifest.request "canary" 1)).1
  = Ok {| CanaryEnabled := false;
          Deployments := [ {| Name := "web"; Image := "web:1.0"; Track := "main";
                              Replicas := 3; AvailableReplicas := 3 |} ];
          Endpoints := [ {| TargetPod := "web-0"; Ip := "10.0.0.1" |} ] |}.
Proof. repeat split; vm_compute; reflexivity. Qed.

Example nginx_canary_state :
  (spawn Manifest.nginx "nginx" "happy_fox" (Manifest.request "canary" 1)).1
  = Ok {| CanaryEnabled := false;
          Deployments := [ {| Name := "nginx"; Image := "nginx:1.25.0-alpine";
                              Track := "main"; Replicas := 3; AvailableReplicas := 3 |};
                           {| Name := "nginx-canary-happy-fox"; Image := "nginx:canary";
                              Track := "canary"; Replicas := 1; AvailableReplicas := 0 |} ];
          Endpoints := [ {| TargetPod := "nginx-0"; Ip := "10.0.0.1" |} ] |}.
Proof. vm_compute. reflexivity. Qed.

(** ** The failures of the canary spawner *)

(** An error of a read is the error of one of its three fetches. *)
Lemma GetAppState_Err {W} (k8s : Clientset W) (name : string) (w : W) (e : error) :
  GetAppState k8s name w = Err e ->
  Deployments_List k8s w (app_options name) = Failure e \/
  Endpoints_Get k8s w name = Failure e \/
  Services_Get k8s w name = Failure e.
Proof.
  intros Herr.
  destruct (Deployments_List k8s w (app_options name)) as [items|e1] eqn:Hl.
  2: { rewrite (GetAppState_list_fails _ _ _ _ Hl) in Herr. left. congruence. }
  destruct (Endpoints_Get k8s w name) as [endpoint|e2] eqn:He.
  2: { rewrite (GetAppState_endpoints_fail _ _ _ _ _ Hl He) in Herr.
       right. left. congruence. }
  destruct (Services_Get k8s w name) as [svc|e3] eqn:Hs.
  2: { rewrite (GetAppState_service_fails _ _ _ _ _ _ Hl He Hs) in Herr.
       right. right. congruence. }
  by destruct (GetAppState_fetched_not_Err _ _ _ _ _ _ e Hl He Hs).
Qed.

Lemma canary_deployment_not_Err (name randomName : string) (req : CanaryCreateRequest)
    (deployment : appsv1.Deployment) (e : error) :
  canary_deployment name randomName req deployment <> Err e.
Proof.
  unfold canary_deployment. simpl.
  destruct (appsv1.Selector _) as [sel|]; [| done]. simpl.
  destruct (metav1.MatchLabels sel); [| done]. simpl.
  destruct (metav1.Labels _); [| done]. simpl.
  destruct (v1.Containers _) as [|c0 cs]; [done |]. simpl.
  by destruct (canary_image_total (v1.Image c0) (Tag req)) as [repo ->].
Qed.

(** C6: the handler does not look at the tag. Every error it returns is
    the error the body parser or one call of the cluster client returned:
    the fetch of the primary, the create, or a fetch of the state read
    that follows. With any tag, the empty one included, a primary that is
    found and has a selector, template labels and a container, and a
    canary name that is free, the workload is created, and its image
    reference is the repository part of the image of the primary (what
    stands before its first colon, all of it when it has none), a colon,
    and the tag. *)
Theorem C6_tag_is_not_validated :
  (forall W (k8s : Clientset W) name randomName body w e,
     (create_canary k8s name randomName body w).1 = Err e ->
     body = Failure e \/
     Deployments_Get k8s w name = Failure e \/
     (exists canary, (Deployments_Create k8s w canary).1 = Failure e) \/
     (exists w',
        Deployments_List k8s w' (app_options name) = Failure e \/
        Endpoints_Get k8s w' name = Failure e \/
        Services_Get k8s w' name = Failure e)) /\
  (forall (c : Cluster.t) name randomName tag replicas deployment,
     Cluster.get_deployment c name = Success deployment ->
     spawnable deployment ->
     List.find (Cluster.named (canary_name name randomName)) (Cluster.deployments c) = None ->
     exists d image repo,
       Cluster.deployments (spawn c name randomName (Manifest.request tag replicas)).2
         = (Cluster.deployments c ++ [d])%list /\
       first_image deployment = Some image /\
       colon_free repo /\
       (image = repo \/ exists rest, image = repo ++ ":" ++ rest) /\
       first_image d = Some (repo ++ ":" ++ tag)).
Proof.
  split.
  - intros W k8s name randomName body w e. unfold create_canary.
    destruct body as [req|e0]; [| simpl; intros [= ->]; by left].
    destruct (Deployments_Get k8s w name) as [deployment|e0];
      [| simpl; intros [= ->]; by right; left].
    pose proof (canary_deployment_not_Err name randomName req deployment e) as Hne.
    destruct (canary_deployment name randomName req deployment) as [canary|e0|p];
      [| simpl; by intros [= ->] | done].
    destruct (Deployments_Create k8s w canary) as [created w'] eqn:Hcreate.
    destruct created as [created|e0]; simpl.
    + intros Herr%GetAppState_Err. right. right. right. by exists w'.
    + intros [= ->]. right. right. left. exists canary. by rewrite Hcreate.
  - intros c name randomName tag replicas deployment Hget Hshape Hfree.
    destruct (canary_deployment_total name randomName
                {| Tag := tag; ReqReplicas := replicas |} deployment Hshape) as [d Hd].
    pose proof Hd as Hd'. apply canary_deployment_Ok in Hd'
      as (_ & _ & _ & c0 & image & _ & _ & _ & Hc0 & Himage & Hname & _ & _ & _ & _ & _ & Hcs).
    destruct (canary_image_repo (v1.Image c0) tag) as (repo & Hfree' & Hsplit & Hrepo).
    simpl in Himage. rewrite Hrepo in Himage. injection Himage as <-.
    exists d, (v1.Image c0), repo. split; [| split; [| split; [| split]]].
    + unfold spawn, create_canary, Manifest.request.
      cbn [Deployments_Get Deployments_Create Cluster.clientset].
      rewrite Hget, Hd. unfold Cluster.create_deployment.
      rewrite Hname. fold (canary_name name randomName). by rewrite Hfree.
    + unfold first_image. by rewrite Hc0.
    + done.
    + done.
    + unfold first_image. rewrite Hcs.
      by destruct (containers_of deployment).
Qed.

Lemma C6_witness :
  exists d image repo,
    Cluster.deployments
      (spawn Manifest.nginx "nginx" "happy_fox" (Manifest.request "" 1)).2
      = (Cluster.deployments Manifest.nginx ++ [d])%list /\
    first_image (Manifest.primary "nginx" "nginx:1.25.0-alpine") = Some image /\
    colon_free repo /\
    (image = repo \/ exists rest, image = repo ++ ":" ++ rest) /\
    first_image d = Some (repo ++ ":" ++ "").
Proof.
  apply (proj2 C6_tag_is_not_validated Manifest.nginx "nginx" "happy_fox" "" 1
           (Manifest.primary "nginx" "nginx:1.25.0-alpine")).
  - vm_compute. reflexivity.
  - split; [| split].
    + eexists. split; [reflexivity | by eexists].
    + by eexists.
    + discriminate.
  - vm_compute. reflexivity.
Defined.

(** C6 as stated does not hold: with the empty tag the handler does
    not return [InvalidTag]; it creates the canary, with the image
    reference ["nginx:"], and returns the state that shows it. *)
Lemma C6_counterexample_empty_tag_creates :
  spawn Manifest.nginx "nginx" "happy_fox" (Manifest.request "" 1)
  = (Ok {| CanaryEnabled := false;
           Deployments := [ {| Name := "nginx"; Image := "nginx:1.25.0-alpine";
                               Track := "main"; Replicas := 3; AvailableReplicas := 3 |};
                            {| Name := "nginx-canary-happy-fox"; Image := "nginx:";
                               Track := "canary"; Replicas := 1; AvailableReplicas := 0 |} ];
           Endpoints := [ {| TargetPod := "nginx-0"; Ip := "10.0.0.1" |} ] |},
     {| Cluster.deployments :=
          [ Manifest.primary "nginx" "nginx:1.25.0-alpine";
            Manifest.canary "nginx" "nginx-canary-happy-fox" "nginx:" 1 ];
        Cluster.services := Cluster.services Manifest.nginx;
        Cluster.endpoints := Cluster.endpoints Manifest.nginx |}).
Proof. vm_compute. reflexivity. Qed.

(** ** The traffic switch on the in-memory cluster *)

Lemma selector_member_track :
  Cluster.selector_member "/spec/selector/track" = Some "track".
Proof. vm_compute. reflexivity. Qed.

Lemma service_eta (svc : v1.Service) (sel : gomap) :
  v1.Selector (v1.SvcSpec svc) = sel -> svc = {| v1.SvcSpec := {| v1.Selector := sel |} |}.
Proof. destruct svc as [[s]]. simpl. by intros ->. Qed.

(** Disabling: the [add] sets [track] to ["main"]. *)
Lemma apply_disable (svc : v1.Service) (sel : gmap string string) :
  v1.Selector (v1.SvcSpec svc) = Some sel ->
  Cluster.apply_patch svc (set_canary_patch false)
  = Success {| v1.SvcSpec := {| v1.Selector := Some (<["track" := "main"]> sel) |} |}.
Proof.
  intros Hsel. unfold set_canary_patch, Cluster.apply_patch, Cluster.apply_op.
  cbn [Path Op Value]. by rewrite selector_member_track, Hsel.
Qed.

(** Enabling: the [remove] deletes [track] when it is there, and is
    refused when it is not. *)
Lemma apply_enable (svc : v1.Service) (sel : gmap string string) :
  v1.Selector (v1.SvcSpec svc) = Some sel ->
  Cluster.apply_patch svc (set_canary_patch true)
  = match sel !! "track" with
    | Some _ => Success {| v1.SvcSpec := {| v1.Selector := Some (delete "track" sel) |} |}
    | None => Failure (GatewayError "Unable to remove nonexistent key")
    end.
Proof.
  intros Hsel. unfold set_canary_patch, Cluster.apply_patch, Cluster.apply_op.
  cbn [Path Op Value]. rewrite selector_member_track, Hsel.
  change ("remove" =? "add")%string with false.
  change ("remove" =? "remove")%string with true.
  cbn match. by destruct (sel !! "track").
Qed.

Lemma switch_patched (c : Cluster.t) (name : string) (enabled : bool)
    (svc svc' : v1.Service) :
  Cluster.services c !! name = Some svc ->
  Cluster.apply_patch svc (set_canary_patch enabled) = Success svc' ->
  (switch c name enabled).2
    = {| Cluster.deployments := Cluster.deployments c;
         Cluster.services := <[name := svc']> (Cluster.services c);
         Cluster.endpoints := Cluster.endpoints c |} /\
  (switch c name enabled).1
    = GetAppState Cluster.clientset name (switch c name enabled).2.
Proof.
  intros Hsvc Hpatch. unfold switch, set_canary.
  cbn [Services_Patch Cluster.clientset]. unfold Cluster.patch_service.
  by rewrite Hsvc, Hpatch.
Qed.

Lemma switch_refused (c : Cluster.t) (name : string) (enabled : bool)
    (svc : v1.Service) (e : error) :
  Cluster.services c !! name = Some svc ->
  Cluster.apply_patch svc (set_canary_patch enabled) = Failure e ->
  switch c name enabled = (Err e, c).
Proof.
  intros Hsvc Hpatch. unfold switch, set_canary.
  cbn [Services_Patch Cluster.clientset]. unfold Cluster.patch_service.
  by rewrite Hsvc, Hpatch.
Qed.

Lemma cluster_eta (c : Cluster.t) :
  {| Cluster.deployments := Cluster.deployments c;
     Cluster.services := Cluster.services c;
     Cluster.endpoints := Cluster.endpoints c |} = c.
Proof. by destruct c. Qed.

(** C4: on a routing service that has a selector, disabling is not an
    error: the handler goes on to read the state, the selector holds
    [track = "main"] afterwards, nothing changes when it held it before,
    and disabling twice leaves the cluster that disabling once leaves.
    Enabling removes the key [track] when the selector holds it. When the
    selector holds no [track] key, the gateway refuses the [remove] of
    the JSON patch: the handler returns that error and the cluster is
    left as it was. *)
Theorem C4_disable_idempotent_enable_needs_track (c : Cluster.t) (name : string)
    (svc : v1.Service) (sel : gmap string string) :
  Cluster.services c !! name = Some svc ->
  v1.Selector (v1.SvcSpec svc) = Some sel ->
  (Cluster.selector (switch c name false).2 name = Some (Some (<["track" := "main"]> sel)) /\
   (switch c name false).1 = GetAppState Cluster.clientset name (switch c name false).2 /\
   (sel !! "track" = Some "main" -> (switch c name false).2 = c) /\
   (switch (switch c name false).2 name false).2 = (switch c name false).2) /\
  (is_Some (sel !! "track") ->
   Cluster.selector (switch c name true).2 name = Some (Some (delete "track" sel)) /\
   (switch c name true).1 = GetAppState Cluster.clientset name (switch c name true).2) /\
  (sel !! "track" = None ->
   switch c name true = (Err (GatewayError "Unable to remove nonexistent key"), c)).
Proof.
  intros Hsvc Hsel. split; [| split].
  - destruct (switch_patched c name false svc _ Hsvc (apply_disable svc sel Hsel))
      as [Hc1 Hr1].
    split; [| split; [done | split]].
    + rewrite Hc1. unfold Cluster.selector. simpl. by rewrite lookup_insert_eq.
    + intros Hmain. rewrite Hc1, (insert_id sel "track" "main" Hmain).
      rewrite <- (service_eta svc (Some sel) Hsel).
      rewrite (insert_id (Cluster.services c) name svc Hsvc). apply cluster_eta.
    + set (c1 := (switch c name false).2) in *.
      set (svc1 := {| v1.SvcSpec := {| v1.Selector := Some (<["track" := "main"]> sel) |} |})
        in *.
      assert (Cluster.services c1 !! name = Some svc1) as Hsvc1
        by (rewrite Hc1; simpl; apply lookup_insert_eq).
      destruct (switch_patched c1 name false svc1 _ Hsvc1
                  (apply_disable svc1 (<["track" := "main"]> sel) eq_refl)) as [Hc2 _].
      rewrite Hc2, (insert_insert_eq sel "track"), (insert_id _ name _ Hsvc1).
      apply cluster_eta.
  - intros [t Ht].
    pose proof (apply_enable svc sel Hsel) as Hpatch. rewrite Ht in Hpatch.
    destruct (switch_patched c name true svc _ Hsvc Hpatch) as [Hc1 Hr1].
    split; [| done].
    rewrite Hc1. unfold Cluster.selector. simpl. by rewrite lookup_insert_eq.
  - intros Hnone.
    pose proof (apply_enable svc sel Hsel) as Hpatch. rewrite Hnone in Hpatch.
    by apply (switch_refused c name true svc).
Qed.

Lemma C4_witness :
  switch Manifest.nginx_enabled "nginx" true
  = (Err (GatewayError "Unable to remove nonexistent key"), Manifest.nginx_enabled).
Proof.
  refine (proj2 (proj2 (C4_disable_idempotent_enable_needs_track
            Manifest.nginx_enabled "nginx"
            (Manifest.service (Some {[ "app" := "nginx" ]}))
            ({[ "app" := "nginx" ]} : gmap string string) _ _)) _).
  - vm_compute. reflexivity.
  - reflexivity.
  - vm_compute. reflexivity.
Defined.

(** C4 as stated does not hold: enabling canary traffic on a selector
    that has no [track] key is not a patch that does nothing; the handler
    returns the error of the gateway. *)
Lemma C4_counterexample_enable_twice_fails :
  Cluster.selector Manifest.nginx_enabled "nginx" = Some (Some {[ "app" := "nginx" ]}) /\
  (switch Manifest.nginx_enabled "nginx" true).1
  = Err (GatewayError "Unable to remove nonexistent key") /\
  (switch (switch Manifest.nginx "nginx" true).2 "nginx" true).1
  = Err (GatewayError "Unable to remove nonexistent key").
Proof. repeat split; vm_compute; reflexivity. Qed.

Example nginx_enable_then_read :
  (switch Manifest.nginx "nginx" true).1
  = Ok {| CanaryEnabled := true;
          Deployments := [ {| Name := "nginx"; Image := "nginx:1.25.0-alpine";
                              Track := "main"; Replicas := 3; AvailableReplicas := 3 |} ];
          Endpoints := [ {| TargetPod := "nginx-0"; Ip := "10.0.0.1" |} ] |}.
Proof. vm_compute. reflexivity. Qed.

(** ** The conversions: what they read and where they stop *)

Lemma customEndpoint_Ok (a : v1.EndpointAddress) (e : Endpoint) :
  customEndpoint a = Ok e <->
  Ip e = v1.IP a /\ v1.RefName <$> v1.TargetRef a = Some (TargetPod e).
Proof.
  unfold customEndpoint. destruct e as [pod ip].
  destruct (v1.TargetRef a) as [r|]; simpl; split.
  - by intros [= <- <-].
  - by intros [-> [= ->]].
  - done.
  - by intros [_ ?].
Qed.

Lemma asCustomEndpoint_Ok (l : list v1.EndpointAddress) (es : list Endpoint) :
  asCustomEndpoint l = Ok es <->
  Forall2 (fun a e => customEndpoint a = Ok e) l es.
Proof.
  revert es. induction l as [|a l IH]; intros es; simpl.
  - split; [intros [= <-]; constructor | by inversion 1].
  - rewrite bind_Ok. split.
    + intros (e & He & H). apply bind_Ok in H as (es' & Hes & [= <-]).
      constructor; [done | by apply IH].
    + inversion 1 as [|? e ? es' He Hes]; subst.
      exists e. split; [done |]. apply IH in Hes. by rewrite Hes.
Qed.

Lemma asCustomEndpoint_nil_ref (l : list v1.EndpointAddress) :
  ~ Forall (fun a => is_Some (v1.TargetRef a)) l ->
  asCustomEndpoint l = Panic NilPointerDereference.
Proof.
  induction l as [|a l IH]; intros Hnot.
  - by destruct Hnot.
  - simpl. unfold customEndpoint.
    destruct (v1.TargetRef a) as [r|] eqn:Hr; [| done]. simpl.
    rewrite IH; [done |]. intros Hl. apply Hnot. by constructor.
Qed.

(** X1: [asCustomEndpoint] returns a list exactly when every address
    names its pod; the list then has one endpoint for each address, in
    the same order, with the address and the name of its pod. An address
    with a nil [TargetRef] ends the conversion in a nil dereference. *)
Theorem X1_asCustomEndpoint_all_or_panic (l : list v1.EndpointAddress) :
  (Forall (fun a => is_Some (v1.TargetRef a)) l ->
   exists es,
     asCustomEndpoint l = Ok es /\
     Forall2 (fun a e => Ip e = v1.IP a /\
                         v1.RefName <$> v1.TargetRef a = Some (TargetPod e)) l es) /\
  (~ Forall (fun a => is_Some (v1.TargetRef a)) l ->
   asCustomEndpoint l = Panic NilPointerDereference).
Proof.
  split; [| apply asCustomEndpoint_nil_ref].
  intros Hall. destruct (asCustomEndpoint_total l Hall) as [es Hes].
  exists es. split; [done |].
  apply asCustomEndpoint_Ok in Hes.
  eapply Forall2_impl; [exact Hes |]. intros a e. apply customEndpoint_Ok.
Qed.

Lemma X1_witness :
  asCustomEndpoint [ Cases.address "10.0.0.1" "nginx-0"; Cases.bare_address "10.0.0.9" ]
  = Panic NilPointerDereference.
Proof.
  apply (proj2 (X1_asCustomEndpoint_all_or_panic
                  [ Cases.address "10.0.0.1" "nginx-0"; Cases.bare_address "10.0.0.9" ])).
  intros Hall. apply Forall_cons in Hall as [_ Hall].
  apply Forall_cons in Hall as [[r Hr] _]. discriminate Hr.
Defined.

(** X2: the endpoints of a state are the addresses of the first subset
    of the endpoints object, in their order, and of no other subset; an
    object with no subset gives the empty list. *)
Theorem X2_endpoints_of_first_subset_only {W} (k8s : Clientset W) (name : string)
    (w : W) (endpoint : v1.Endpoints) (st : AppStateResponse) :
  Endpoints_Get k8s w name = Success endpoint ->
  GetAppState k8s name w = Ok st ->
  Forall2 (fun a e => Ip e = v1.IP a /\
                      v1.RefName <$> v1.TargetRef a = Some (TargetPod e))
          (default [] (v1.Addresses <$> head (v1.Subsets endpoint)))
          (Endpoints st) /\
  (v1.Subsets endpoint = [] -> Endpoints st = []).
Proof.
  intros Hget Hst.
  apply GetAppState_Ok in Hst as (? & endpoint' & ? & ? & es & _ & Hget' & _ & _ & Hes & ->).
  rewrite Hget in Hget'. injection Hget' as <-. simpl.
  assert (addresses_of endpoint = default [] (v1.Addresses <$> head (v1.Subsets endpoint)))
    as Haddr by (unfold addresses_of; by destruct (v1.Subsets endpoint)).
  rewrite Haddr in Hes. apply asCustomEndpoint_Ok in Hes. split.
  - eapply Forall2_impl; [exact Hes |]. intros a e. apply customEndpoint_Ok.
  - intros Hnone. rewrite Hnone in Hes. simpl in Hes. by inversion Hes.
Qed.

Lemma X2_witness :
  Forall2 (fun a e => Ip e = v1.IP a /\
                      v1.RefName <$> v1.TargetRef a = Some (TargetPod e))
          [ Cases.address "10.0.0.1" "nginx-0"; Cases.address "10.0.0.2" "nginx-1" ]
          [ {| TargetPod := "nginx-0"; Ip := "10.0.0.1" |};
            {| TargetPod := "nginx-1"; Ip := "10.0.0.2" |} ].
Proof.
  refine (proj1 (X2_endpoints_of_first_subset_only Cluster.clientset "nginx"
                   (Cases.with_endpoints Cases.two_subsets) Cases.two_subsets
                   {| CanaryEnabled := false;
                      Deployments := [ {| Name := "nginx"; Image := "nginx:1.25.0-alpine";
                                          Track := "main"; Replicas := 3;
                                          AvailableReplicas := 3 |} ];
                      Endpoints := [ {| TargetPod := "nginx-0"; Ip := "10.0.0.1" |};
                                     {| TargetPod := "nginx-1"; Ip := "10.0.0.2" |} ] |}
                   _ _)).
  - vm_compute. reflexivity.
  - vm_compute. reflexivity.
Defined.

Lemma customDeployment_fields (v : appsv1.Deployment) (d : Deployment) :
  customDeployment v = Ok d ->
  Name d = metav1.Name (appsv1.ObjectMeta v) /\
  Track d = default "" (object_track v) /\
  appsv1.Replicas (appsv1.Spec v) = Some (Replicas d) /\
  AvailableReplicas d = appsv1.AvailableReplicas (appsv1.Status v).
Proof.
  unfold customDeployment, object_track.
  destruct (v1.Containers _) as [|c cs]; [done |]. simpl.
  destruct (appsv1.Replicas _); [| done]. simpl.
  intros [= <-]. simpl. by rewrite map_index_lookup.
Qed.

Lemma customDeployment_convertible (v : appsv1.Deployment) :
  (exists d, customDeployment v = Ok d) <-> convertible v.
Proof.
  split.
  - intros [d Hd]. unfold customDeployment, convertible, containers_of in *.
    destruct (v1.Containers _) as [|c cs]; [done |]. simpl in Hd.
    destruct (appsv1.Replicas _); [| done]. by split.
  - intros [Hc Hr]. by apply customDeployment_total.
Qed.

Lemma asCustomDeployment_app_Ok (good rest : list appsv1.Deployment) :
  Forall convertible good ->
  exists ds, asCustomDeployment (good ++ rest)
             = (tl ← asCustomDeployment rest; mret (ds ++ tl)%list).
Proof.
  induction 1 as [|v good Hv _ [ds IH]].
  - exists []. simpl. by destruct (asCustomDeployment rest).
  - destruct (proj2 (customDeployment_convertible v) Hv) as [d Hd].
    exists (d :: ds). simpl. rewrite Hd. simpl. rewrite IH.
    by destruct (asCustomDeployment rest).
Qed.

(** X3: [asCustomDeployment] returns a list exactly when every workload
    declares a container and a replica count. The first workload that
    does not ends the conversion: in an index out of range when it
    declares no container, in a nil dereference when it declares one and
    has no replica count. *)
Theorem X3_asCustomDeployment_all_or_panic :
  (forall l, (exists ds, asCustomDeployment l = Ok ds) <-> Forall convertible l) /\
  (forall good v rest,
     Forall convertible good -> containers_of v = [] ->
     asCustomDeployment (good ++ v :: rest) = Panic IndexOutOfRange) /\
  (forall good v rest,
     Forall convertible good -> containers_of v <> [] ->
     appsv1.Replicas (appsv1.Spec v) = None ->
     asCustomDeployment (good ++ v :: rest) = Panic NilPointerDereference).
Proof.
  split; [| split].
  - intros l. split.
    + intros [ds Hds]. apply asCustomDeployment_Ok in Hds.
      induction Hds as [|v d l ds Hd _ IH]; constructor; [| done].
      apply customDeployment_convertible. by exists d.
    + apply asCustomDeployment_total.
  - intros good v rest Hgood Hv.
    destruct (asCustomDeployment_app_Ok good (v :: rest) Hgood) as [ds ->].
    simpl. by rewrite (customDeployment_no_container v Hv).
  - intros good v rest Hgood Hc Hr.
    destruct (asCustomDeployment_app_Ok good (v :: rest) Hgood) as [ds ->].
    simpl. unfold customDeployment, containers_of in *.
    destruct (v1.Containers _); [done |]. simpl. by rewrite Hr.
Qed.

Lemma X3_witness :
  asCustomDeployment
    ([ Manifest.primary "nginx" "nginx:1.25.0-alpine" ] ++ Cases.no_replicas :: [])
  = Panic NilPointerDereference.
Proof.
  apply (proj2 (proj2 X3_asCustomDeployment_all_or_panic)).
  - constructor; [| constructor]. split; [discriminate | by eexists].
  - discriminate.
  - reflexivity.
Defined.

(** X4: a state has one entry for each surfaced workload, in the order of
    the list call; the entry has the name of the object, the value of its
    [track] label, its replica count and the available replicas of its
    status. *)
Theorem X4_state_entries_follow_the_objects {W} (k8s : Clientset W) (name : string)
    (w : W) (items : list appsv1.Deployment) (st : AppStateResponse) :
  Deployments_List k8s w (app_options name) = Success items ->
  GetAppState k8s name w = Ok st ->
  length (Deployments st) = length (filter surfaced items) /\
  Forall2 (fun v d =>
             Name d = metav1.Name (appsv1.ObjectMeta v) /\
             Track d = default "" (object_track v) /\
             appsv1.Replicas (appsv1.Spec v) = Some (Replicas d) /\
             AvailableReplicas d = appsv1.AvailableReplicas (appsv1.Status v))
          (filter surfaced items) (Deployments st).
Proof.
  intros Hl Hst.
  pose proof (GetAppState_deployments k8s name w items st Hl Hst) as Hall.
  split; [symmetry; by eapply Forall2_length |].
  eapply Forall2_impl; [exact Hall |]. intros v d. apply customDeployment_fields.
Qed.

Lemma X4_witness :
  length [ {| Name := "nginx"; Image := "nginx:1.25.0-alpine"; Track := "main";
              Replicas := 3; AvailableReplicas := 3 |} ]
  = length (filter surfaced [ Manifest.primary "nginx" "nginx:1.25.0-alpine";
                              Cases.unmanaged "batch" "nginx" ]).
Proof.
  refine (proj1 (X4_state_entries_follow_the_objects Cluster.clientset "nginx"
                   (Cases.with_workloads [ Manifest.primary "nginx" "nginx:1.25.0-alpine";
                                           Cases.unmanaged "batch" "nginx" ])
                   [ Manifest.primary "nginx" "nginx:1.25.0-alpine";
                     Cases.unmanaged "batch" "nginx" ]
                   {| CanaryEnabled := false;
                      Deployments := [ {| Name := "nginx"; Image := "nginx:1.25.0-alpine";
                                          Track := "main"; Replicas := 3;
                                          AvailableReplicas := 3 |} ];
                      Endpoints := [ {| TargetPod := "nginx-0"; Ip := "10.0.0.1" |} ] |}
                   _ _)).
  - vm_compute. reflexivity.
  - vm_compute. reflexivity.
Defined.

(** ** The image reference and the name of the canary, for every input *)

(** X5: for every image reference and every tag the handler computes an
    image reference: the part of the old one before its first colon (all
    of it when it has none), which holds no colon, then a colon and the
    tag. The tag of a canary made from a canary replaces the earlier tag:
    the result is the one the first image gives with the second tag. *)
Theorem X5_canary_image_keeps_repo_replaces_tag :
  (forall image tag,
     exists repo,
       canary_image image tag = Ok (repo ++ ":" ++ tag) /\
       colon_free repo /\
       (image = repo \/ exists rest, image = repo ++ ":" ++ rest)) /\
  (forall image tag1 tag2 image1,
     canary_image image tag1 = Ok image1 ->
     canary_image image1 tag2 = canary_image image tag2).
Proof.
  split.
  - intros image tag. destruct (canary_image_repo image tag) as (repo & Hrepo & Hsplit & Himage).
    exists repo. by rewrite Himage.
  - intros image tag1 tag2 image1 H1.
    destruct (canary_image_repo image tag1) as (repo & Hrepo & _ & Himage).
    rewrite Himage in H1. injection H1 as <-.
    rewrite Himage. by apply canary_image_first_colon.
Qed.

Lemma X5_witness :
  canary_image "registry:beta" "rc1"
  = canary_image "registry:5000/nginx:1.25.0" "rc1".
Proof.
  apply (proj2 X5_canary_image_keeps_repo_replaces_tag
           "registry:5000/nginx:1.25.0" "beta" "rc1" "registry:beta").
  vm_compute. reflexivity.
Defined.

Lemma length_append (a b : string) :
  String.length (a ++ b) = (String.length a + String.length b)%nat.
Proof.
  induction a as [|c a IH]; [done |].
  rewrite append_cons. simpl. by rewrite IH.
Qed.

Lemma underscore_free_cons (c : ascii) (s : string) :
  underscore_free (String c s) <-> c <> "_"%char /\ underscore_free s.
Proof. unfold underscore_free. simpl. split; [intros H; split |]; intuition congruence. Qed.

Lemma underscore_free_append (a b : string) :
  underscore_free a -> underscore_free b -> underscore_free (a ++ b).
Proof.
  intros Ha Hb. induction a as [|c a IH]; [done |].
  apply underscore_free_cons in Ha as [Hc Ha].
  rewrite append_cons. apply underscore_free_cons. split; [done | by apply IH].
Qed.

Lemma ReplaceAll_cons (c : ascii) (s : string) :
  ReplaceAll (String c s) "_" "-"
  = String (if Ascii.eqb c "_" then "-"%char else c) (ReplaceAll s "_" "-").
Proof. simpl. by destruct (Ascii.eqb c "_"). Qed.

Lemma ReplaceAll_underscore_free (s : string) :
  underscore_free (ReplaceAll s "_" "-").
Proof.
  induction s as [|c s IH]; [by intros [] |].
  rewrite ReplaceAll_cons. apply underscore_free_cons. split; [| done].
  destruct (Ascii.eqb c "_") eqn:Hc; [done | by apply Ascii.eqb_neq].
Qed.



Lemma canary_name_longer (name randomName : string) :
  (String.length name < String.length (canary_name name randomName))%nat.
Proof.
  unfold canary_name. rewrite !length_append. simpl. lia.
Qed.

(** X7: a workload the create-canary handler adds has the name
    [<name>-canary-<token>], the token being the random name with a dash
    for every underscore. That name is never the name of the primary,
    and it holds no underscore when the application name holds none. *)
Theorem X7_canary_name (c : Cluster.t) (name randomName : string)
    (body : result CanaryCreateRequest) (d : appsv1.Deployment) :
  Cluster.deployments (spawn c name randomName body).2 = (Cluster.deployments c ++ [d])%list ->
  appsv1.GetName d = name ++ "-canary-" ++ ReplaceAll randomName "_" "-" /\
  appsv1.GetName d <> name /\
  (underscore_free name -> underscore_free (appsv1.GetName d)).
Proof.
  intros (req & deployment & _ & _ & Hd)%spawn_created.
  apply canary_deployment_Ok in Hd
    as (_ & _ & _ & _ & _ & _ & _ & _ & _ & _ & Hname & _).
  split; [done |]. split.
  - intros Heq. pose proof (canary_name_longer name randomName) as Hlt.
    unfold canary_name in Hlt. rewrite <- Hname, Heq in Hlt. lia.
  - intros Hfree. rewrite Hname.
    apply underscore_free_append; [done |].
    apply underscore_free_append; [| apply ReplaceAll_underscore_free].
    unfold underscore_free. simpl. intuition discriminate.
Qed.

Lemma X7_witness :
  appsv1.GetName (Manifest.canary "nginx" "nginx-canary-happy-fox" "nginx:beta" 1)
  <> "nginx".
Proof.
  apply (proj1 (proj2 (X7_canary_name Manifest.nginx "nginx" "happy_fox"
                         (Manifest.request "beta" 1)
                         (Manifest.canary "nginx" "nginx-canary-happy-fox" "nginx:beta" 1)
                         ltac:(vm_compute; reflexivity)))).
Defined.

(** ** The canary spawner: what is kept, what is written, what is left alone *)

Lemma lookup_insert_track (m : gmap string string) (k : string) :
  k <> "track" -> <["track" := "canary"]> m !! k = m !! k.
Proof. intros Hk. by apply lookup_insert_ne. Qed.

(** The parts of the primary the handler copies. *)
Lemma canary_deployment_inherits (name randomName : string) (req : CanaryCreateRequest)
    (deployment d : appsv1.Deployment) :
  canary_deployment name randomName req deployment = Ok d ->
  tail (containers_of d) = tail (containers_of deployment) /\
  v1.Name <$> head (containers_of d) = v1.Name <$> head (containers_of deployment) /\
  v1.Env <$> head (containers_of d) = v1.Env <$> head (containers_of deployment) /\
  v1.Volumes (v1.Spec (appsv1.Template (appsv1.Spec d)))
    = v1.Volumes (v1.Spec (appsv1.Template (appsv1.Spec deployment))) /\
  (forall k, k <> "track" ->
     map_lookup (pod_selector_labels d) k = map_lookup (pod_selector_labels deployment) k) /\
  (forall k, k <> "track" ->
     map_lookup (pod_template_labels d) k = map_lookup (pod_template_labels deployment) k).
Proof.
  unfold canary_deployment, containers_of, pod_selector_labels, pod_template_labels. simpl.
  destruct (appsv1.Selector _) as [sel|]; [| done]. simpl.
  destruct (metav1.MatchLabels sel) as [ml|] eqn:Hml; [| done]. simpl.
  destruct (metav1.Labels _) as [tl|] eqn:Htl; [| done]. simpl.
  destruct (v1.Containers _) as [|c0 cs]; [done |]. simpl.
  destruct (canary_image _ _) as [image| |]; [| done | done]. simpl.
  unfold mret, outcome_ret. intros [= <-]. simpl. rewrite ?Hml, ?Htl.
  repeat split; try done; intros k Hk; simpl; by apply lookup_insert_track.
Qed.

(** X8: a workload the create-canary handler adds has the specification
    of the primary it was made from: the same containers after the first,
    the name and the environment of the first, the same volumes, and in
    its pod selector and its pod template every label of the primary
    other than [track]. *)
Theorem X8_canary_inherits_the_specification (c : Cluster.t) (name randomName : string)
    (body : result CanaryCreateRequest) (primary d : appsv1.Deployment) :
  Cluster.get_deployment c name = Success primary ->
  Cluster.deployments (spawn c name randomName body).2 = (Cluster.deployments c ++ [d])%list ->
  tail (containers_of d) = tail (containers_of primary) /\
  v1.Name <$> head (containers_of d) = v1.Name <$> head (containers_of primary) /\
  v1.Env <$> head (containers_of d) = v1.Env <$> head (containers_of primary) /\
  v1.Volumes (v1.Spec (appsv1.Template (appsv1.Spec d)))
    = v1.Volumes (v1.Spec (appsv1.Template (appsv1.Spec primary))) /\
  (forall k, k <> "track" ->
     map_lookup (pod_selector_labels d) k = map_lookup (pod_selector_labels primary) k) /\
  (forall k, k <> "track" ->
     map_lookup (pod_template_labels d) k = map_lookup (pod_template_labels primary) k).
Proof.
  intros Hget (req & deployment & _ & Hget' & Hd)%spawn_created.
  rewrite Hget in Hget'. injection Hget' as <-.
  by eapply canary_deployment_inherits.
Qed.

Lemma X8_witness :
  tail (containers_of Cases.rich_canary) = tail (containers_of Cases.rich).
Proof.
  refine (proj1 (X8_canary_inherits_the_specification (Cases.with_workloads [ Cases.rich ])
                   "nginx" "happy_fox" (Manifest.request "beta" 1)
                   Cases.rich Cases.rich_canary _ _)).
  - vm_compute. reflexivity.
  - vm_compute. reflexivity.
Defined.

(** X9: the handler does not validate the replica count and copies no
    label or annotation of the object: a workload it adds has the replica
    count of the request, whatever the number, no available replica in
    its status, the annotation [devops-tool-htmx] alone, and the labels
    [app] and [track] alone. *)
Theorem X9_canary_replicas_and_metadata (c : Cluster.t) (name randomName : string)
    (req : CanaryCreateRequest) (d : appsv1.Deployment) :
  Cluster.deployments (spawn c name randomName (Success req)).2
    = (Cluster.deployments c ++ [d])%list ->
  appsv1.Replicas (appsv1.Spec d) = Some (ReqReplicas req) /\
  appsv1.AvailableReplicas (appsv1.Status d) = 0 /\
  (forall k, k <> "devops-tool-htmx" -> map_lookup (appsv1.GetAnnotations d) k = None) /\
  (forall k, k <> "app" -> k <> "track" -> map_lookup (appsv1.GetLabels d) k = None).
Proof.
  intros (req' & deployment & [= <-] & _ & Hd)%spawn_created.
  assert (appsv1.AvailableReplicas (appsv1.Status d) = 0) as Hstatus.
  { revert Hd. unfold canary_deployment. simpl.
    destruct (appsv1.Selector _) as [sel|]; [| done]. simpl.
    destruct (metav1.MatchLabels sel); [| done]. simpl.
    destruct (metav1.Labels _); [| done]. simpl.
    destruct (v1.Containers _); [done |]. simpl.
    destruct (canary_image _ _); [| done | done]. simpl.
    unfold mret, outcome_ret. by intros [= <-]. }
  apply canary_deployment_Ok in Hd
    as (_ & _ & _ & _ & _ & _ & _ & _ & _ & _ & _ & Hl & Ha & Hr & _).
  split; [done |]. split; [done |]. split.
  - intros k Hk. rewrite Ha. simpl. by apply lookup_singleton_ne.
  - intros k Happ Htrack. rewrite Hl. simpl.
    rewrite lookup_insert_ne by done. by apply lookup_singleton_ne.
Qed.

Lemma X9_witness :
  appsv1.Replicas
    (appsv1.Spec (Manifest.canary "nginx" "nginx-canary-happy-fox" "nginx:beta" (-2)))
  = Some (ReqReplicas {| Tag := "beta"; ReqReplicas := -2 |}).
Proof.
  apply (proj1 (X9_canary_replicas_and_metadata Manifest.nginx "nginx" "happy_fox"
                  {| Tag := "beta"; ReqReplicas := -2 |}
                  (Manifest.canary "nginx" "nginx-canary-happy-fox" "nginx:beta" (-2))
                  ltac:(vm_compute; reflexivity))).
Defined.

(** X10: the create-canary handler writes nothing but the new workload:
    the workloads that were there stay, unchanged and in their order,
    before at most one new one, and no service and no endpoints object is
    changed, whatever the handler returns. *)
Theorem X10_spawn_changes_nothing_else (c : Cluster.t) (name randomName : string)
    (body : result CanaryCreateRequest) :
  Cluster.deployments c `prefix_of` Cluster.deployments (spawn c name randomName body).2 /\
  (length (Cluster.deployments (spawn c name randomName body).2)
     <= S (length (Cluster.deployments c)))%nat /\
  Cluster.services (spawn c name randomName body).2 = Cluster.services c /\
  Cluster.endpoints (spawn c name randomName body).2 = Cluster.endpoints c.
Proof.
  destruct (spawn_cluster c name randomName body)
    as [-> | (req & deployment & d & _ & _ & _ & _ & -> & _)].
  - repeat split; [done | lia].
  - simpl. repeat split.
    + by apply prefix_app_r.
    + rewrite length_app. simpl. lia.
Qed.

(** ** The canary spawner: when it creates, and when it stops *)

Lemma canary_deployment_spawnable (name randomName : string) (req : CanaryCreateRequest)
    (deployment : appsv1.Deployment) :
  (exists d, canary_deployment name randomName req deployment = Ok d) <->
  spawnable deployment.
Proof.
  split; [| apply canary_deployment_total].
  intros [d Hd]. apply canary_deployment_Ok in Hd
    as (sel & ml & tl & c0 & _ & Hsel & Hml & Htl & Hc0 & _).
  split; [| split].
  - exists sel. split; [done | by exists ml].
  - by exists tl.
  - intros Hnil. by rewrite Hnil in Hc0.
Qed.

Lemma canary_deployment_name (name randomName : string) (req : CanaryCreateRequest)
    (deployment d : appsv1.Deployment) :
  canary_deployment name randomName req deployment = Ok d ->
  appsv1.GetName d = canary_name name randomName.
Proof.
  intros Hd. by apply canary_deployment_Ok in Hd
    as (_ & _ & _ & _ & _ & _ & _ & _ & _ & _ & Hname & _).
Qed.

(** X11: the create-canary handler adds a workload exactly when the body
    was parsed, the primary is found under the application name, the
    primary has a pod selector with match labels, pod-template labels and
    a container, and no workload has the name of the canary. *)
Theorem X11_spawn_creates_exactly_when (c : Cluster.t) (name randomName : string)
    (body : result CanaryCreateRequest) :
  (exists d, Cluster.deployments (spawn c name randomName body).2
             = (Cluster.deployments c ++ [d])%list) <->
  (exists req primary,
     body = Success req /\
     Cluster.get_deployment c name = Success primary /\
     spawnable primary /\
     List.find (Cluster.named (canary_name name randomName)) (Cluster.deployments c) = None).
Proof.
  split.
  - intros [d Hnew].
    destruct (spawn_cluster c name randomName body)
      as [Hsame | (req & primary & d' & Hb & Hg & Hd & Hfree & _)].
    + rewrite Hsame in Hnew. apply (f_equal length) in Hnew.
      rewrite length_app in Hnew. simpl in Hnew. lia.
    + exists req, primary. split; [done |]. split; [done |]. split.
      * apply (canary_deployment_spawnable name randomName req). by exists d'.
      * by rewrite <- (canary_deployment_name _ _ _ _ _ Hd).
  - intros (req & primary & -> & Hget & Hshape & Hfree).
    destruct (canary_deployment_total name randomName req primary Hshape) as [d Hd].
    exists d. unfold spawn, create_canary.
    cbn [Deployments_Get Deployments_Create Cluster.clientset].
    rewrite Hget, Hd. unfold Cluster.create_deployment.
    by rewrite (canary_deployment_name _ _ _ _ _ Hd), Hfree.
Qed.

Lemma X11_witness :
  exists d,
    Cluster.deployments
      (spawn Manifest.nginx "nginx" "happy_fox" (Manifest.request "beta" 1)).2
    = (Cluster.deployments Manifest.nginx ++ [d])%list.
Proof.
  apply (proj2 (X11_spawn_creates_exactly_when Manifest.nginx "nginx" "happy_fox"
                  (Manifest.request "beta" 1))).
  exists {| Tag := "beta"; ReqReplicas := 1 |}, (Manifest.primary "nginx" "nginx:1.25.0-alpine").
  split; [reflexivity |]. split; [vm_compute; reflexivity |]. split.
  - split; [| split].
    + eexists. split; [reflexivity | by eexists].
    + by eexists.
    + discriminate.
  - vm_compute. reflexivity.
Defined.

(** X12: a primary the handler cannot write into makes it panic before
    the create, and the cluster is left as it was: a nil pod selector is
    a nil dereference, nil match labels or nil pod-template labels are an
    assignment to a nil map, and no container is an index out of range. *)
Theorem X12_spawn_panics_before_create (c : Cluster.t) (name randomName : string)
    (req : CanaryCreateRequest) (primary : appsv1.Deployment) :
  Cluster.get_deployment c name = Success primary ->
  (appsv1.Selector (appsv1.Spec primary) = None ->
   spawn c name randomName (Success req) = (Panic NilPointerDereference, c)) /\
  (forall sel,
     appsv1.Selector (appsv1.Spec primary) = Some sel ->
     metav1.MatchLabels sel = None \/ pod_template_labels primary = None ->
     spawn c name randomName (Success req) = (Panic AssignmentToNilMap, c)) /\
  (forall sel,
     appsv1.Selector (appsv1.Spec primary) = Some sel ->
     is_Some (metav1.MatchLabels sel) -> is_Some (pod_template_labels primary) ->
     containers_of primary = [] ->
     spawn c name randomName (Success req) = (Panic IndexOutOfRange, c)).
Proof.
  intros Hget. unfold spawn, create_canary, pod_template_labels, containers_of.
  cbn [Deployments_Get Cluster.clientset]. rewrite Hget.
  unfold canary_deployment. simpl.
  split; [| split].
  - by intros ->.
  - intros sel -> [Hml | Htl]; simpl.
    + by rewrite Hml.
    + destruct (metav1.MatchLabels sel); simpl; by rewrite ?Htl.
  - intros sel -> [ml Hml] [tl Htl] Hcs. simpl. rewrite Hml. simpl.
    rewrite Htl. simpl. by rewrite Hcs.
Qed.

Lemma X12_witness :
  spawn (Cases.with_workloads [ Cases.no_match_labels ]) "nginx" "happy_fox"
        (Success {| Tag := "beta"; ReqReplicas := 1 |})
  = (Panic AssignmentToNilMap, Cases.with_workloads [ Cases.no_match_labels ]).
Proof.
  refine (proj1 (proj2 (X12_spawn_panics_before_create
                          (Cases.with_workloads [ Cases.no_match_labels ])
                          "nginx" "happy_fox" {| Tag := "beta"; ReqReplicas := 1 |}
                          Cases.no_match_labels _))
                {| metav1.MatchLabels := None |} _ _).
  - vm_compute. reflexivity.
  - reflexivity.
  - by left.
Defined.

Lemma find_app_found {A} (f : A -> bool) (l l' : list A) (x : A) :
  List.find f l = Some x -> List.find f (l ++ l') = Some x.
Proof.
  induction l as [|a l IH]; [done |]. simpl. by destruct (f a).
Qed.

Lemma find_app_last {A} (f : A -> bool) (l : list A) (d : A) :
  f d = true -> exists x, List.find f (l ++ [d]) = Some x.
Proof.
  intros Hd. induction l as [|a l IH]; simpl.
  - rewrite Hd. eauto.
  - destruct (f a); eauto.
Qed.

Lemma get_deployment_found (c : Cluster.t) (name : string) (primary : appsv1.Deployment) :
  Cluster.get_deployment c name = Success primary ->
  List.find (Cluster.named name) (Cluster.deployments c) = Some primary.
Proof.
  unfold Cluster.get_deployment. destruct (List.find _ _); by intros [= <-].
Qed.

(** X13: the same random name twice: when the handler has added a canary,
    a second request for the same application that draws the same random
    name is refused by the create as a name already taken, and the
    cluster keeps the one canary. *)
Theorem X13_same_random_name_is_refused (c : Cluster.t) (name randomName : string)
    (body : result CanaryCreateRequest) (d : appsv1.Deployment) :
  Cluster.deployments (spawn c name randomName body).2 = (Cluster.deployments c ++ [d])%list ->
  spawn (spawn c name randomName body).2 name randomName body
  = (Err (GatewayError "AlreadyExists"), (spawn c name randomName body).2).
Proof.
  intros Hnew.
  destruct (spawn_created c name randomName body d Hnew) as (req & primary & -> & Hget & Hd).
  set (c1 := (spawn c name randomName (Success req)).2) in *.
  unfold spawn at 1. unfold create_canary.
  cbn [Deployments_Get Deployments_Create Cluster.clientset].
  assert (Cluster.get_deployment c1 name = Success primary) as ->.
  { unfold Cluster.get_deployment. rewrite Hnew.
    by rewrite (find_app_found _ _ _ _ (get_deployment_found c name primary Hget)). }
  rewrite Hd. unfold Cluster.create_deployment. rewrite Hnew.
  destruct (find_app_last (Cluster.named (appsv1.GetName d)) (Cluster.deployments c) d)
    as [x ->]; [| done].
  unfold Cluster.named. apply String.eqb_refl.
Qed.

Lemma X13_witness :
  spawn (spawn Manifest.nginx "nginx" "happy_fox" (Manifest.request "beta" 1)).2
        "nginx" "happy_fox" (Manifest.request "beta" 1)
  = (Err (GatewayError "AlreadyExists"),
     (spawn Manifest.nginx "nginx" "happy_fox" (Manifest.request "beta" 1)).2).
Proof.
  apply (X13_same_random_name_is_refused Manifest.nginx "nginx" "happy_fox"
           (Manifest.request "beta" 1)
           (Manifest.canary "nginx" "nginx-canary-happy-fox" "nginx:beta" 1)).
  vm_compute. reflexivity.
Defined.

(** X14: the handler does not undo the create when the state read that
    follows fails: with no endpoints object under the application name
    the handler returns the error [NotFound] of that fetch, and the
    canary stays in the cluster. *)
Theorem X14_failed_read_keeps_the_canary (c : Cluster.t) (name randomName : string)
    (req : CanaryCreateRequest) (primary : appsv1.Deployment) :
  Cluster.get_deployment c name = Success primary ->
  spawnable primary ->
  List.find (Cluster.named (canary_name name randomName)) (Cluster.deployments c) = None ->
  Cluster.endpoints c !! name = None ->
  exists d,
    canary_deployment name randomName req primary = Ok d /\
    spawn c name randomName (Success req)
    = (Err NotFound,
       {| Cluster.deployments := Cluster.deployments c ++ [d];
          Cluster.services := Cluster.services c;
          Cluster.endpoints := Cluster.endpoints c |}).
Proof.
  intros Hget Hshape Hfree Hnone.
  destruct (canary_deployment_total name randomName req primary Hshape) as [d Hd].
  exists d. split; [done |].
  unfold spawn, create_canary.
  cbn [Deployments_Get Deployments_Create Cluster.clientset].
  rewrite Hget, Hd. unfold Cluster.create_deployment.
  rewrite (canary_deployment_name _ _ _ _ _ Hd), Hfree.
  f_equal. eapply GetAppState_endpoints_fail; [reflexivity |].
  cbn [Endpoints_Get Cluster.clientset]. unfold Cluster.get_endpoints. simpl.
  by rewrite Hnone.
Qed.

Lemma X14_witness :
  exists d,
    canary_deployment "nginx" "happy_fox" {| Tag := "beta"; ReqReplicas := 1 |}
                      (Manifest.primary "nginx" "nginx:1.25.0-alpine") = Ok d /\
    spawn Cases.no_endpoints "nginx" "happy_fox"
          (Success {| Tag := "beta"; ReqReplicas := 1 |})
    = (Err NotFound,
       {| Cluster.deployments := Cluster.deployments Cases.no_endpoints ++ [d];
          Cluster.services := Cluster.services Cases.no_endpoints;
          Cluster.endpoints := Cluster.endpoints Cases.no_endpoints |}).
Proof.
  apply (X14_failed_read_keeps_the_canary Cases.no_endpoints "nginx" "happy_fox"
           {| Tag := "beta"; ReqReplicas := 1 |}
           (Manifest.primary "nginx" "nginx:1.25.0-alpine")).
  - vm_compute. reflexivity.
  - split; [| split].
    + eexists. split; [reflexivity | by eexists].
    + by eexists.
    + discriminate.
  - vm_compute. reflexivity.
  - vm_compute. reflexivity.
Defined.

(** ** The traffic switch: what it writes and what it reports *)

(** The handler leaves the cluster as it was, or with the patched service
    in the place of the one under the name. *)
Lemma switch_cluster (c : Cluster.t) (name : string) (enabled : bool) :
  (switch c name enabled).2 = c \/
  exists svc svc',
    Cluster.services c !! name = Some svc /\
    Cluster.apply_patch svc (set_canary_patch enabled) = Success svc' /\
    (switch c name enabled).2
      = {| Cluster.deployments := Cluster.deployments c;
           Cluster.services := <[name := svc']> (Cluster.services c);
           Cluster.endpoints := Cluster.endpoints c |}.
Proof.
  destruct (Cluster.services c !! name) as [svc|] eqn:Hsvc.
  - destruct (Cluster.apply_patch svc (set_canary_patch enabled)) as [svc'|e] eqn:Hp.
    + right. exists svc, svc'. split; [done |]. split; [done |].
      by destruct (switch_patched c name enabled svc svc' Hsvc Hp).
    + left. by rewrite (switch_refused c name enabled svc e Hsvc Hp).
  - left. unfold switch, set_canary.
    cbn [Services_Patch Cluster.clientset]. unfold Cluster.patch_service.
    by rewrite Hsvc.
Qed.

(** X15: the set-canary handler writes to the service under the name and
    to nothing else: the workloads, the endpoints objects and every other
    service are as they were, the service exists afterwards exactly when
    it did before, and with no service under the name the handler returns
    [NotFound] and leaves the cluster as it was. *)
Theorem X15_switch_writes_one_service_only (c : Cluster.t) (name : string) (enabled : bool) :
  Cluster.deployments (switch c name enabled).2 = Cluster.deployments c /\
  Cluster.endpoints (switch c name enabled).2 = Cluster.endpoints c /\
  (forall other, other <> name ->
     Cluster.services (switch c name enabled).2 !! other = Cluster.services c !! other) /\
  (is_Some (Cluster.services (switch c name enabled).2 !! name)
     <-> is_Some (Cluster.services c !! name)) /\
  (Cluster.services c !! name = None -> switch c name enabled = (Err NotFound, c)).
Proof.
  split; [| split; [| split; [| split]]].
  - by destruct (switch_cluster c name enabled) as [-> | (svc & svc' & _ & _ & ->)].
  - by destruct (switch_cluster c name enabled) as [-> | (svc & svc' & _ & _ & ->)].
  - intros other Hother.
    destruct (switch_cluster c name enabled) as [-> | (svc & svc' & _ & _ & ->)]; [done |].
    simpl. by apply lookup_insert_ne.
  - destruct (switch_cluster c name enabled) as [-> | (svc & svc' & Hsvc & _ & ->)]; [done |].
    simpl. rewrite lookup_insert_eq, Hsvc. split; eauto.
  - intros Hnone. unfold switch, set_canary.
    cbn [Services_Patch Cluster.clientset]. unfold Cluster.patch_service.
    by rewrite Hnone.
Qed.

Lemma X15_witness :
  switch Manifest.nginx "web" true = (Err NotFound, Manifest.nginx).
Proof.
  apply (proj2 (proj2 (proj2 (proj2
           (X15_switch_writes_one_service_only Manifest.nginx "web" true))))).
  vm_compute. reflexivity.
Defined.

(** X16: enabling canary traffic and disabling it again brings a cluster
    whose selector pins [track = "main"] back to what it was; disabling
    and enabling again brings a cluster whose selector has no [track] key
    back to what it was. *)
Theorem X16_switch_round_trips (c : Cluster.t) (name : string)
    (svc : v1.Service) (sel : gmap string string) :
  Cluster.services c !! name = Some svc ->
  v1.Selector (v1.SvcSpec svc) = Some sel ->
  (sel !! "track" = Some "main" ->
   (switch (switch c name true).2 name false).2 = c) /\
  (sel !! "track" = None ->
   (switch (switch c name false).2 name true).2 = c).
Proof.
  intros Hsvc Hsel. split.
  - intros Hmain.
    pose proof (apply_enable svc sel Hsel) as Hp. rewrite Hmain in Hp.
    destruct (switch_patched c name true svc _ Hsvc Hp) as [Hc1 _].
    set (c1 := (switch c name true).2) in *.
    set (svc1 := {| v1.SvcSpec := {| v1.Selector := Some (delete "track" sel) |} |}) in *.
    assert (Cluster.services c1 !! name = Some svc1) as Hsvc1
      by (rewrite Hc1; simpl; apply lookup_insert_eq).
    destruct (switch_patched c1 name false svc1 _ Hsvc1
                (apply_disable svc1 (delete "track" sel) eq_refl)) as [Hc2 _].
    rewrite Hc2, Hc1. simpl.
    rewrite (insert_delete_id sel "track" "main" Hmain), insert_insert_eq.
    rewrite <- (service_eta svc (Some sel) Hsel).
    rewrite (insert_id (Cluster.services c) name svc Hsvc). apply cluster_eta.
  - intros Hnone.
    destruct (switch_patched c name false svc _ Hsvc (apply_disable svc sel Hsel)) as [Hc1 _].
    set (c1 := (switch c name false).2) in *.
    set (svc1 := {| v1.SvcSpec := {| v1.Selector := Some (<["track" := "main"]> sel) |} |})
      in *.
    assert (Cluster.services c1 !! name = Some svc1) as Hsvc1
      by (rewrite Hc1; simpl; apply lookup_insert_eq).
    pose proof (apply_enable svc1 (<["track" := "main"]> sel) eq_refl) as Hp.
    rewrite lookup_insert_eq in Hp.
    destruct (switch_patched c1 name true svc1 _ Hsvc1 Hp) as [Hc2 _].
    rewrite Hc2, Hc1. simpl.
    rewrite (delete_insert_id sel "track" "main" Hnone), insert_insert_eq.
    rewrite <- (service_eta svc (Some sel) Hsel).
    rewrite (insert_id (Cluster.services c) name svc Hsvc). apply cluster_eta.
Qed.

Lemma X16_witness :
  (switch (switch Manifest.nginx "nginx" true).2 "nginx" false).2 = Manifest.nginx.
Proof.
  refine (proj1 (X16_switch_round_trips Manifest.nginx "nginx"
                   (Manifest.service (Some {[ "app" := "nginx"; "track" := "main" ]}))
                   ({[ "app" := "nginx"; "track" := "main" ]} : gmap string string) _ _) _).
  - vm_compute. reflexivity.
  - reflexivity.
  - vm_compute. reflexivity.
Defined.

Lemma GetAppState_canaryEnabled (c : Cluster.t) (name : string)
    (svc : v1.Service) (st : AppStateResponse) :
  Cluster.services c !! name = Some svc ->
  GetAppState Cluster.clientset name c = Ok st ->
  CanaryEnabled st = canaryEnabled svc.
Proof.
  intros Hsvc Hst.
  apply GetAppState_Ok in Hst as (? & ? & svc' & ? & ? & _ & _ & Hget & _ & _ & ->).
  cbn [Services_Get Cluster.clientset] in Hget. unfold Cluster.get_service in Hget.
  rewrite Hsvc in Hget. by injection Hget as <-.
Qed.

(** X17: the state the set-canary handler returns is read after the
    patch: when disabling returns a state its [canaryEnabled] is false,
    and when enabling a selector that holds [track] returns a state its
    [canaryEnabled] is true, whatever the selector was before. *)
Theorem X17_switch_reports_the_new_selector (c : Cluster.t) (name : string)
    (svc : v1.Service) (sel : gmap string string) :
  Cluster.services c !! name = Some svc ->
  v1.Selector (v1.SvcSpec svc) = Some sel ->
  (forall st, (switch c name false).1 = Ok st -> CanaryEnabled st = false) /\
  (is_Some (sel !! "track") ->
   forall st, (switch c name true).1 = Ok st -> CanaryEnabled st = true).
Proof.
  intros Hsvc Hsel. split.
  - intros st Hst.
    destruct (switch_patched c name false svc _ Hsvc (apply_disable svc sel Hsel))
      as [Hc1 Hr1].
    rewrite Hr1 in Hst.
    erewrite (GetAppState_canaryEnabled _ name _ st); [| | exact Hst].
    2: { rewrite Hc1. simpl. apply lookup_insert_eq. }
    unfold canaryEnabled. simpl. by rewrite lookup_insert_eq.
  - intros [t Ht] st Hst.
    pose proof (apply_enable svc sel Hsel) as Hp. rewrite Ht in Hp.
    destruct (switch_patched c name true svc _ Hsvc Hp) as [Hc1 Hr1].
    rewrite Hr1 in Hst.
    erewrite (GetAppState_canaryEnabled _ name _ st); [| | exact Hst].
    2: { rewrite Hc1. simpl. apply lookup_insert_eq. }
    unfold canaryEnabled. simpl. by rewrite lookup_delete_eq.
Qed.

Lemma X17_witness :
  CanaryEnabled
    {| CanaryEnabled := true;
       Deployments := [ {| Name := "nginx"; Image := "nginx:1.25.0-alpine";
                           Track := "main"; Replicas := 3; AvailableReplicas := 3 |} ];
       Endpoints := [ {| TargetPod := "nginx-0"; Ip := "10.0.0.1" |} ] |} = true.
Proof.
  refine (proj2 (X17_switch_reports_the_new_selector Manifest.nginx "nginx"
                   (Manifest.service (Some {[ "app" := "nginx"; "track" := "main" ]}))
                   ({[ "app" := "nginx"; "track" := "main" ]} : gmap string string) _ _)
                _ _ _).
  - vm_compute. reflexivity.
  - reflexivity.
  - by eexists.
  - vm_compute. reflexivity.
Defined.

(** ** The index handler: the applications it lists *)

Lemma collect_apps_lookup (items : list appsv1.Deployment) (apps : gmap string bool)
    (a : string) :
  is_Some (collect_apps items apps !! a) <->
  is_Some (apps !! a) \/
  (a <> "" /\ exists v, v ∈ items /\ map_index (appsv1.GetLabels v) "app" = a).
Proof.
  revert apps. induction items as [|v items IH]; intros apps; simpl.
  - split; [by left |]. intros [? | (_ & v & Hv & _)]; [done |].
    by apply elem_of_nil in Hv.
  - destruct (String.eqb_spec (map_index (appsv1.GetLabels v) "app") "") as [Hempty | Hne];
      simpl; rewrite IH.
    + split.
      * intros [? | (Ha & x & Hx & Hl)]; [by left |].
        right. split; [done |]. exists x. split; [by apply list_elem_of_further | done].
      * intros [? | (Ha & x & Hx & Hl)]; [by left |].
        apply elem_of_cons in Hx as [-> | Hx]; [congruence |].
        right. split; [done |]. by exists x.
    + split.
      * intros [Hin | (Ha & x & Hx & Hl)].
        -- destruct (decide (map_index (appsv1.GetLabels v) "app" = a)) as [<- | Hother].
           ++ right. split; [done |]. exists v. split; [apply list_elem_of_here | done].
           ++ left. by rewrite lookup_insert_ne in Hin.
        -- right. split; [done |]. exists x. split; [by apply list_elem_of_further | done].
      * intros [Hin | (Ha & x & Hx & Hl)].
        -- left. destruct (decide (map_index (appsv1.GetLabels v) "app" = a)) as [<- | Hother].
           ++ rewrite lookup_insert_eq. eauto.
           ++ by rewrite lookup_insert_ne.
        -- apply elem_of_cons in Hx as [-> | Hx].
           ++ left. rewrite Hl, lookup_insert_eq. eauto.
           ++ right. split; [done |]. by exists x.
Qed.

Lemma keys_lookup (m : gmap string bool) (a : string) :
  a ∈ (map_to_list m).*1 <-> is_Some (m !! a).
Proof.
  rewrite list_elem_of_fmap. split.
  - intros ([k x] & -> & Hin). apply elem_of_map_to_list in Hin. simpl. eauto.
  - intros [x Hx]. exists (a, x). split; [done | by apply elem_of_map_to_list].
Qed.

(** X18: the index handler lists every application once: a name is in
    the list exactly when it is not the empty string and is the [app]
    label of some workload of the list call, opted in or not; workloads
    with no [app] label add nothing. When the list call fails, the
    handler returns that error. *)
Theorem X18_index_lists_each_app_once {W} (clientset : Clientset W) (w : W) :
  (forall items keys,
     Deployments_List clientset w
       {| metav1.LabelSelector_ := {| metav1.MatchLabels := None |} |} = Success items ->
     index clientset w = Ok keys ->
     NoDup keys /\
     forall a, a ∈ keys <->
               a <> "" /\
               exists v, v ∈ items /\ map_index (appsv1.GetLabels v) "app" = a) /\
  (forall e,
     Deployments_List clientset w
       {| metav1.LabelSelector_ := {| metav1.MatchLabels := None |} |} = Failure e ->
     index clientset w = Err e).
Proof.
  unfold index. split.
  - intros items keys ->. simpl. unfold mret, outcome_ret. intros [= <-]. split.
    + apply NoDup_fst_map_to_list.
    + intros a. rewrite keys_lookup, collect_apps_lookup, lookup_empty.
      split; [intros [[? ?] | ?]; done | by right].
  - by intros e ->.
Qed.

Lemma X18_witness :
  NoDup [ "nginx"; "billing" ] /\
  forall a, a ∈ [ "nginx"; "billing" ] <->
            a <> "" /\
            exists v,
              v ∈ [ Manifest.primary "nginx" "nginx:1.25.0-alpine";
                    Cases.unmanaged "batch" "billing"; Cases.unlabelled;
                    Cases.unmanaged "batch2" "billing" ] /\
              map_index (appsv1.GetLabels v) "app" = a.
Proof.
  refine (proj1 (X18_index_lists_each_app_once Cluster.clientset
                   (Cases.with_workloads
                      [ Manifest.primary "nginx" "nginx:1.25.0-alpine";
                        Cases.unmanaged "batch" "billing"; Cases.unlabelled;
                        Cases.unmanaged "batch2" "billing" ])) _ _ _ _).
  - vm_compute. reflexivity.
  - vm_compute. reflexivity.
Defined.

(** ** The state projector: workloads it does not see *)

Lemma GetAppState_in_memory (c : Cluster.t) (name : string) :
  GetAppState Cluster.clientset name c =
    (endpoint ← try (Cluster.get_endpoints c name);
     svc ← try (Cluster.get_service c name);
     ds ← asCustomDeployment
            (filter surfaced
               (List.filter (Cluster.selected (app_options name)) (Cluster.deployments c)));
     es ← asCustomEndpoint (addresses_of endpoint);
     mret {| CanaryEnabled := canaryEnabled svc; Deployments := ds; Endpoints := es |}).
Proof.
  unfold GetAppState. rewrite app_options_eq.
  cbn [Deployments_List Endpoints_Get Services_Get Cluster.clientset].
  unfold Cluster.list_deployments. simpl. by rewrite managedDeployments_filter.
Qed.

Lemma filter_not_surfaced (junk : list appsv1.Deployment) (f : appsv1.Deployment -> bool) :
  Forall (fun v => ~ surfaced v) junk ->
  filter surfaced (List.filter f junk) = [].
Proof.
  induction 1 as [|v junk Hv _ IH]; [done |]. simpl.
  destruct (f v); [| done]. rewrite filter_cons. by case_decide.
Qed.

(** X19: workloads that did not opt in, or hold no [track] label, do not
    change what a read returns: with any number of them anywhere among
    the workloads of the cluster, the read returns what it returns
    without them, a panic included. *)
Theorem X19_read_ignores_unmanaged_workloads (name : string)
    (before junk after : list appsv1.Deployment)
    (services : gmap string v1.Service) (endpoints : gmap string v1.Endpoints) :
  Forall (fun v => ~ surfaced v) junk ->
  GetAppState Cluster.clientset name
    {| Cluster.deployments := before ++ junk ++ after;
       Cluster.services := services; Cluster.endpoints := endpoints |}
  = GetAppState Cluster.clientset name
      {| Cluster.deployments := before ++ after;
         Cluster.services := services; Cluster.endpoints := endpoints |}.
Proof.
  intros Hjunk. rewrite !GetAppState_in_memory. simpl.
  rewrite !List.filter_app, !filter_app.
  by rewrite (filter_not_surfaced junk _ Hjunk).
Qed.

Lemma X19_witness :
  GetAppState Cluster.clientset "nginx"
    {| Cluster.deployments :=
         [ Manifest.primary "nginx" "nginx:1.25.0-alpine" ]
           ++ [ Cases.unmanaged "batch" "nginx"; Cases.unlabelled ] ++ [];
       Cluster.services := Cluster.services Manifest.nginx;
       Cluster.endpoints := Cluster.endpoints Manifest.nginx |}
  = GetAppState Cluster.clientset "nginx"
      {| Cluster.deployments := [ Manifest.primary "nginx" "nginx:1.25.0-alpine" ] ++ [];
         Cluster.services := Cluster.services Manifest.nginx;
         Cluster.endpoints := Cluster.endpoints Manifest.nginx |}.
Proof.
  apply X19_read_ignores_unmanaged_workloads.
  repeat constructor; intros [Hopt _]; vm_compute in Hopt; discriminate Hopt.
Defined.

(** ** The state the create-canary handler returns *)

Lemma canary_selected_by_nginx (name randomName : string) (req : CanaryCreateRequest)
    (deployment d : appsv1.Deployment) :
  canary_deployment name randomName req deployment = Ok d ->
  Cluster.selected (app_options "nginx") d = true.
Proof.
  intros Hd. apply canary_deployment_Ok in Hd
    as (_ & _ & _ & _ & _ & _ & _ & _ & _ & _ & _ & Hl & _).
  unfold Cluster.selected, app_options. simpl.
  apply bool_decide_eq_true, map_Forall_singleton. by rewrite Hl.
Qed.

(** X20: for the application [nginx], when the create-canary handler has
    added a canary and returns a state, the last entry of the state is
    the one of the canary: its name, the track ["canary"], the replica
    count of the request, no available replica, and the image of its
    first container. *)
Theorem X20_nginx_state_ends_with_the_canary (c : Cluster.t) (randomName : string)
    (req : CanaryCreateRequest) (d : appsv1.Deployment) (st : AppStateResponse) :
  Cluster.deployments (spawn c "nginx" randomName (Success req)).2
    = (Cluster.deployments c ++ [d])%list ->
  (spawn c "nginx" randomName (Success req)).1 = Ok st ->
  exists entries e,
    Deployments st = (entries ++ [e])%list /\
    Name e = canary_name "nginx" randomName /\
    Track e = "canary" /\
    Replicas e = ReqReplicas req /\
    AvailableReplicas e = 0 /\
    first_image d = Some (Image e).
Proof.
  intros Hnew Hst.
  destruct (spawn_created c "nginx" randomName _ d Hnew)
    as (req' & primary & [= <-] & Hget & Hd).
  destruct (spawn_cluster c "nginx" randomName (Success req))
    as [Hsame | (_ & _ & _ & _ & _ & _ & _ & _ & Hread)].
  { rewrite Hsame in Hnew. apply (f_equal length) in Hnew.
    rewrite length_app in Hnew. simpl in Hnew. lia. }
  rewrite Hread, GetAppState_in_memory, Hnew in Hst.
  rewrite List.filter_app, filter_app in Hst. simpl in Hst.
  rewrite (canary_selected_by_nginx _ _ _ _ _ Hd) in Hst.
  destruct (canary_surfaced _ _ _ _ _ Hd) as (_ & _ & Hs).
  rewrite filter_cons, decide_True in Hst by done.
  apply bind_Ok in Hst as (endpoint & _ & Hst).
  apply bind_Ok in Hst as (svc & _ & Hst).
  apply bind_Ok in Hst as (ds & Hds & Hst).
  apply bind_Ok in Hst as (es & _ & [= <-]). simpl.
  apply asCustomDeployment_Ok, Forall2_app_inv_l in Hds
    as (entries & last & _ & Hlast & ->).
  apply Forall2_cons_inv_l in Hlast as (e & nothing & He & Hnil & ->).
  apply Forall2_nil_inv_l in Hnil as ->.
  exists entries, e. split; [done |].
  destruct (customDeployment_Ok d e He) as (Himage & _ & _).
  destruct (customDeployment_fields d e He) as (Hname & Htrack & Hreplicas & Havailable).
  destruct (canary_tracks _ _ _ _ _ Hd) as (Hot & _).
  pose proof (canary_deployment_name _ _ _ _ _ Hd) as Hcn.
  assert (appsv1.AvailableReplicas (appsv1.Status d) = 0) as Hzero.
  { revert Hd. unfold canary_deployment. simpl.
    destruct (appsv1.Selector _) as [sel|]; [| done]. simpl.
    destruct (metav1.MatchLabels sel); [| done]. simpl.
    destruct (metav1.Labels _); [| done]. simpl.
    destruct (v1.Containers _); [done |]. simpl.
    destruct (canary_image _ _); [| done | done]. simpl.
    unfold mret, outcome_ret. by intros [= <-]. }
  apply canary_deployment_Ok in Hd
    as (_ & _ & _ & _ & _ & _ & _ & _ & _ & _ & _ & _ & _ & Hr & _).
  rewrite Hr in Hreplicas. injection Hreplicas as Hreplicas.
  rewrite Hot in Htrack. unfold appsv1.GetName in Hcn.
  repeat split; try done; congruence.
Qed.

Lemma X20_witness :
  exists entries e,
    Deployments
      {| CanaryEnabled := false;
         Deployments := [ {| Name := "nginx"; Image := "nginx:1.25.0-alpine";
                             Track := "main"; Replicas := 3; AvailableReplicas := 3 |};
                          {| Name := "nginx-canary-happy-fox"; Image := "nginx:beta";
                             Track := "canary"; Replicas := 1; AvailableReplicas := 0 |} ];
         Endpoints := [ {| TargetPod := "nginx-0"; Ip := "10.0.0.1" |} ] |}
    = (entries ++ [e])%list /\
    Name e = canary_name "nginx" "happy_fox" /\
    Track e = "canary" /\
    Replicas e = ReqReplicas {| Tag := "beta"; ReqReplicas := 1 |} /\
    AvailableReplicas e = 0 /\
    first_image (Manifest.canary "nginx" "nginx-canary-happy-fox" "nginx:beta" 1)
    = Some (Image e).
Proof.
  apply (X20_nginx_state_ends_with_the_canary Manifest.nginx "happy_fox"
           {| Tag := "beta"; ReqReplicas := 1 |}).
  - vm_compute. reflexivity.
  - vm_compute. reflexivity.
Defined.
